(** * Supabase tools: a shallow embedding and its properties

    Source: [tools/src/aden_tools/tools/supabase_tool/supabase_tool.py].

    The three tools are thin wrappers over the Supabase SDK.  The SDK is an
    external collaborator, so it appears here as an interface ([SDK]) whose
    methods may return or raise; everything the Python code itself does
    (credential fallback, validation, request shaping, projection, the
    [try]/[except] around each tool) is translated function by function.

    Effects are kept explicit: a computation yields an outcome (a value or a
    raised exception) together with the ordered list of observable events it
    produced (credential lookups, SDK calls, log records). *)

From Stdlib Require Import String Ascii List ZArith Bool Lia.
Import ListNotations.
Set Warnings "-register-all".
Open Scope string_scope.
Open Scope list_scope.

(** ** Python values *)

(** The dynamically typed values that cross the tool boundary: JSON-like
    data plus plain objects with named attributes (SDK response objects). *)
Inductive pyval : Type :=
| VNone
| VBool (b : bool)
| VInt (z : Z)
| VStr (s : string)
| VList (items : list pyval)
| VDict (entries : list (string * pyval))
| VObj (cls : string) (attrs : list (string * pyval)).

(** A [dict] with string keys, in insertion order. *)
Definition pydict := list (string * pyval).

Fixpoint dict_get {A : Type} (k : string) (d : list (string * A)) : option A :=
  match d with
  | [] => None
  | (k', v) :: rest => if k' =? k then Some v else dict_get k rest
  end.

Definition dict_has {A : Type} (k : string) (d : list (string * A)) : bool :=
  match dict_get k d with Some _ => true | None => false end.

Definition dict_keys {A : Type} (d : list (string * A)) : list string :=
  map fst d.

(** ** Exceptions *)

(** Instances of Python's [Exception]: the class, as far as the handlers in
    this module tell classes apart, and [str(e)].  A subclass of [KeyError]
    counts as [KeyError]. *)
Inductive exn_class : Type :=
| KeyError
| ValueError
| TypeError
| AttributeError
| OtherException (name : string).

Record exn : Type := MkExn { exn_cls : exn_class; exn_str : string }.

Definition is_KeyError (e : exn) : bool :=
  match exn_cls e with KeyError => true | _ => false end.

Inductive outcome (A : Type) : Type :=
| Ok (a : A)
| Raise (e : exn).
Arguments Ok {A} a.
Arguments Raise {A} e.

(** ** Observable events *)

(** [payload: dict[str, Any] | list[dict[str, Any]] | None] *)
Inductive payload_t : Type :=
| PNone
| PRecord (d : pydict)
| PRecords (l : list pydict).

Inductive event : Type :=
| CredentialGet (name : string)
| CreateClient (url key : string)
| Table (name : string)
| Select (columns : string)
| Insert (p : payload_t)
| Update (p : payload_t)
| Delete
| EqCond (column : string) (v : pyval)
| Execute
| ListUsers
| ListBuckets
| LogException (msg : string) (e : exn).

(** ** The effect monad: outcome plus emitted events *)

Definition M (A : Type) : Type := (outcome A * list event)%type.

Definition ret {A} (a : A) : M A := (Ok a, []).

Definition raise {A} (e : exn) : M A := (Raise e, []).

Definition bind {A B} (m : M A) (f : A -> M B) : M B :=
  match m with
  | (Ok a, evs) => let (o, evs') := f a in (o, evs ++ evs')
  | (Raise e, evs) => (Raise e, evs)
  end.

Notation "x <- m ;; k" := (bind m (fun x => k))
  (at level 61, m at next level, right associativity).
Notation "m ;;; k" := (bind m (fun _ => k))
  (at level 61, right associativity).

(** An observable call: record the event, then yield what the callee did. *)
Definition call {A} (ev : event) (o : outcome A) : M A := (o, [ev]).

Definition emit (ev : event) : M unit := (Ok tt, [ev]).

(** [try: body / except Exception as e: handler e]. *)
Definition try_except {A} (body : M A) (handler : exn -> M A) : M A :=
  match body with
  | (Ok a, evs) => (Ok a, evs)
  | (Raise e, evs) => let (o, evs') := handler e in (o, evs ++ evs')
  end.

Definition outcome_of {A} (m : M A) : outcome A := fst m.
Definition events_of {A} (m : M A) : list event := snd m.

(** ** Built-in operations on values *)

Definition py_type_name (v : pyval) : string :=
  match v with
  | VNone => "NoneType"
  | VBool _ => "bool"
  | VInt _ => "int"
  | VStr _ => "str"
  | VList _ => "list"
  | VDict _ => "dict"
  | VObj cls _ => cls
  end.

(** The attributes of a value.  The tools only read [data], [users], [id],
    [email], [created_at], [last_sign_in_at], [name] and [public]; no
    built-in type carries any of these, so built-in values have none. *)
Definition py_attrs (v : pyval) : list (string * pyval) :=
  match v with
  | VObj _ attrs => attrs
  | _ => []
  end.

(** [hasattr(v, name)] *)
Definition py_hasattr (v : pyval) (name : string) : bool :=
  dict_has name (py_attrs v).

(** [getattr(v, name, default)] *)
Definition py_getattr_default (v : pyval) (name : string) (default : pyval) : pyval :=
  match dict_get name (py_attrs v) with
  | Some x => x
  | None => default
  end.

Definition attribute_error (v : pyval) (name : string) : exn :=
  MkExn AttributeError
        ("'" ++ py_type_name v ++ "' object has no attribute '" ++ name ++ "'").

(** [v.name] *)
Definition py_getattr (v : pyval) (name : string) : M pyval :=
  match dict_get name (py_attrs v) with
  | Some x => ret x
  | None => raise (attribute_error v name)
  end.

Fixpoint chars (s : string) : list pyval :=
  match s with
  | EmptyString => []
  | String c rest => VStr (String c EmptyString) :: chars rest
  end.

(** [len(v)] *)
Definition py_len (v : pyval) : M Z :=
  match v with
  | VStr s => ret (Z.of_nat (String.length s))
  | VList l => ret (Z.of_nat (List.length l))
  | VDict d => ret (Z.of_nat (List.length d))
  | _ => raise (MkExn TypeError
                      ("object of type '" ++ py_type_name v ++ "' has no len()"))
  end.

(** [iter(v)], fully unrolled: the items a [for] loop over [v] visits. *)
Definition py_iter (v : pyval) : M (list pyval) :=
  match v with
  | VStr s => ret (chars s)
  | VList l => ret l
  | VDict d => ret (map (fun kv => VStr (fst kv)) d)
  | _ => raise (MkExn TypeError
                      ("'" ++ py_type_name v ++ "' object is not iterable"))
  end.

(** Truthiness of an optional string ([if not url]). *)
Definition str_truthy (s : option string) : bool :=
  match s with
  | None => false
  | Some EmptyString => false
  | Some _ => true
  end.

(** Truthiness of [query_filter: dict[str, Any] | None]. *)
Definition filter_truthy (f : option pydict) : bool :=
  match f with
  | None => false
  | Some [] => false
  | Some _ => true
  end.

(** Truthiness of [payload]. *)
Definition payload_truthy (p : payload_t) : bool :=
  match p with
  | PNone => false
  | PRecord [] => false
  | PRecord _ => true
  | PRecords [] => false
  | PRecords _ => true
  end.

(** [query_filter.items()], reached only once the filter is known to be a
    non-empty dict. *)
Definition items (f : option pydict) : list (string * pyval) :=
  match f with
  | None => []
  | Some d => d
  end.

(** ** External collaborators *)

(** The Supabase SDK as the tools use it.  Handles are opaque; every method
    may raise.  [sdk_execute], [sdk_list_users] and [sdk_list_buckets]
    return response objects. *)
Record SDK : Type := MkSDK {
  client : Type;
  builder : Type;
  request : Type;
  create_client : string -> string -> outcome client;
  sdk_table : client -> string -> outcome builder;
  sdk_select : builder -> string -> outcome request;
  sdk_insert : builder -> payload_t -> outcome request;
  sdk_update : builder -> payload_t -> outcome request;
  sdk_delete : builder -> outcome request;
  sdk_eq : request -> string -> pyval -> outcome request;
  sdk_execute : request -> outcome pyval;
  sdk_list_users : client -> outcome pyval;
  sdk_list_buckets : client -> outcome pyval
}.

(** [CredentialStoreAdapter]: [get(name)] returns a string or [None], or
    raises (a [KeyError] for a name it does not know). *)
Record CredentialStoreAdapter : Type := MkAdapter {
  get : string -> outcome (option string)
}.

(** The process environment read by [os.getenv]. *)
Definition environ := string -> option string.

Definition os_getenv (env : environ) (name : string) : option string := env name.

Definition SUPABASE_URL : string := "SUPABASE_URL".
Definition SUPABASE_SERVICE_ROLE_KEY : string := "SUPABASE_SERVICE_ROLE_KEY".

Definition missing_credentials : exn :=
  MkExn ValueError
    "SUPABASE_URL and SUPABASE_SERVICE_ROLE_KEY are required to use the Supabase tool".

(** ** The module's functions *)

Section register_tools.

Variable sdk : SDK.
Variable credentials : option CredentialStoreAdapter.
Variable env : environ.

(** Lines 16-22: both lookups sit in one [try]; [except KeyError: pass]
    leaves [url] and [key] as they were when the lookup raised. *)
Definition credentials_lookup : M (option string * option string) :=
  match credentials with
  | None => ret (None, None)
  | Some c =>
      match call (CredentialGet SUPABASE_URL) (get c SUPABASE_URL) with
      | (Raise e, evs) =>
          if is_KeyError e then (Ok (None, None), evs) else (Raise e, evs)
      | (Ok url, evs) =>
          match call (CredentialGet SUPABASE_SERVICE_ROLE_KEY)
                     (get c SUPABASE_SERVICE_ROLE_KEY) with
          | (Raise e, evs') =>
              if is_KeyError e then (Ok (url, None), evs ++ evs')
              else (Raise e, evs ++ evs')
          | (Ok key, evs') => (Ok (url, key), evs ++ evs')
          end
      end
  end.

(** Lines 16-34.  After the lookups, each value that is [None] or empty is
    replaced by its environment variable; if either is still [None] or
    empty the configuration error is raised, otherwise the client is
    created.  (The last [match] only unpacks the two strings: a truthy value
    is a string.) *)
Definition _get_supabase_client : M (client sdk) :=
  found <- credentials_lookup ;;
  let url := fst found in
  let key := snd found in
  let url := if negb (str_truthy url) then os_getenv env SUPABASE_URL else url in
  let key := if negb (str_truthy key)
             then os_getenv env SUPABASE_SERVICE_ROLE_KEY else key in
  if negb (str_truthy url) || negb (str_truthy key) then
    raise missing_credentials
  else
    match url, key with
    | Some u, Some k => call (CreateClient u k) (create_client sdk u k)
    | _, _ => raise missing_credentials
    end.

(** [for k, v in query_filter.items(): req = req.eq(k, v)] *)
Fixpoint apply_filters (req : request sdk) (entries : list (string * pyval))
  : M (request sdk) :=
  match entries with
  | [] => ret req
  | (k, v) :: rest =>
      req' <- call (EqCond k v) (sdk_eq sdk req k v) ;;
      apply_filters req' rest
  end.

Definition error_dict (msg : string) : pydict := [("error", VStr msg)].

(** The [try] suite of [supabase_db_query] (lines 63-103). *)
Definition supabase_db_query_try
  (table action : string) (query_filter : option pydict) (payload : payload_t)
  : M pydict :=
  client <- _get_supabase_client ;;
  builder <- call (Table table) (sdk_table sdk client table) ;;
  if action =? "select" then
    req <- call (Select "*") (sdk_select sdk builder "*") ;;
    req <- (if filter_truthy query_filter
            then apply_filters req (items query_filter)
            else ret req) ;;
    res <- call Execute (sdk_execute sdk req) ;;
    data <- py_getattr res "data" ;;
    data' <- py_getattr res "data" ;;
    count <- py_len data' ;;
    ret [("success", VBool true); ("data", data); ("count", VInt count)]
  else if action =? "insert" then
    if negb (payload_truthy payload) then
      ret (error_dict "payload is required for insert action")
    else
      req <- call (Insert payload) (sdk_insert sdk builder payload) ;;
      res <- call Execute (sdk_execute sdk req) ;;
      data <- py_getattr res "data" ;;
      ret [("success", VBool true); ("data", data)]
  else if action =? "update" then
    if negb (payload_truthy payload) then
      ret (error_dict "payload is required for update action")
    else if negb (filter_truthy query_filter) then
      ret (error_dict "query_filter is required for update action")
    else
      req <- call (Update payload) (sdk_update sdk builder payload) ;;
      req <- apply_filters req (items query_filter) ;;
      res <- call Execute (sdk_execute sdk req) ;;
      data <- py_getattr res "data" ;;
      ret [("success", VBool true); ("data", data)]
  else if action =? "delete" then
    if negb (filter_truthy query_filter) then
      ret (error_dict "query_filter is required for delete action")
    else
      req <- call Delete (sdk_delete sdk builder) ;;
      req <- apply_filters req (items query_filter) ;;
      res <- call Execute (sdk_execute sdk req) ;;
      data <- py_getattr res "data" ;;
      ret [("success", VBool true); ("data", data)]
  else
    ret (error_dict
           ("Unknown action: " ++ action
            ++ ". Use select, insert, update, or delete.")).

Definition supabase_db_query
  (table action : string) (query_filter : option pydict) (payload : payload_t)
  : M pydict :=
  try_except
    (supabase_db_query_try table action query_filter payload)
    (fun e =>
       emit (LogException "Supabase DB Query failed" e) ;;;
       ret (error_dict ("Failed to execute DB query: " ++ exn_str e))).

(** The projection of one user (lines 125-132): [id] is read directly,
    the other three fields with a [None] default. *)
Definition project_user (u : pyval) : M pyval :=
  id <- py_getattr u "id" ;;
  ret (VDict [("id", id);
              ("email", py_getattr_default u "email" VNone);
              ("created_at", py_getattr_default u "created_at" VNone);
              ("last_sign_in_at", py_getattr_default u "last_sign_in_at" VNone)]).

(** [for u in result.users: users_list.append({...})] *)
Fixpoint users_loop (us : list pyval) (users_list : list pyval)
  : M (list pyval) :=
  match us with
  | [] => ret users_list
  | u :: rest =>
      d <- project_user u ;;
      users_loop rest (users_list ++ [d])
  end.

(** The [try] suite of [supabase_auth_list_users] (lines 119-133). *)
Definition supabase_auth_list_users_try : M pydict :=
  client <- _get_supabase_client ;;
  res <- call ListUsers (sdk_list_users sdk client) ;;
  users_list <- (if py_hasattr res "users" then
                   users <- py_getattr res "users" ;;
                   us <- py_iter users ;;
                   users_loop us []
                 else ret []) ;;
  ret [("success", VBool true); ("data", VList users_list);
       ("count", VInt (Z.of_nat (List.length users_list)))].

Definition supabase_auth_list_users : M pydict :=
  try_except
    supabase_auth_list_users_try
    (fun e =>
       emit (LogException "Supabase Auth List Users failed" e) ;;;
       ret (error_dict ("Failed to list auth users: " ++ exn_str e))).

(** The projection of one bucket (lines 152-157). *)
Definition project_bucket (b : pyval) : pyval :=
  VDict [("id", py_getattr_default b "id" VNone);
         ("name", py_getattr_default b "name" VNone);
         ("public", py_getattr_default b "public" VNone);
         ("created_at", py_getattr_default b "created_at" VNone)].

(** [for b in buckets: bucket_list.append({...})] *)
Fixpoint buckets_loop (bs : list pyval) (bucket_list : list pyval)
  : list pyval :=
  match bs with
  | [] => bucket_list
  | b :: rest => buckets_loop rest (bucket_list ++ [project_bucket b])
  end.

(** The [try] suite of [supabase_storage_list_buckets] (lines 147-159). *)
Definition supabase_storage_list_buckets_try : M pydict :=
  client <- _get_supabase_client ;;
  buckets <- call ListBuckets (sdk_list_buckets sdk client) ;;
  bs <- py_iter buckets ;;
  let bucket_list := buckets_loop bs [] in
  ret [("success", VBool true); ("data", VList bucket_list);
       ("count", VInt (Z.of_nat (List.length bucket_list)))].

Definition supabase_storage_list_buckets : M pydict :=
  try_except
    supabase_storage_list_buckets_try
    (fun e =>
       emit (LogException "Supabase Storage List Buckets failed" e) ;;;
       ret (error_dict ("Failed to list storage buckets: " ++ exn_str e))).

End register_tools.

Arguments error_dict msg /.

(** ** Shapes of a tool result *)

Definition success_shaped (d : pydict) : bool :=
  match dict_get "success" d with
  | Some (VBool true) => dict_has "data" d && negb (dict_has "error" d)
  | _ => false
  end.

Definition error_shaped (d : pydict) : bool :=
  dict_has "error" d && negb (dict_has "success" d) && negb (dict_has "data" d).

Definition raises {A} (m : M A) : bool :=
  match outcome_of m with Raise _ => true | Ok _ => false end.

(** Events that neither build nor send a request: credential lookups, the
    construction of the client and of the table handle, log records. *)
Definition setup_event (ev : event) : bool :=
  match ev with
  | CredentialGet _ | CreateClient _ _ | Table _ | LogException _ _ => true
  | _ => false
  end.

Definition eq_event (ev : event) : bool :=
  match ev with EqCond _ _ => true | _ => false end.

Definition not_eq_event (ev : event) : bool := negb (eq_event ev).

Definition emits {A} (P : event -> bool) (m : M A) : Prop :=
  forallb P (events_of m) = true.

Definition returns {A} (Q : A -> Prop) (m : M A) : Prop :=
  match outcome_of m with Ok a => Q a | Raise _ => True end.

(** ** Specification-level vocabulary *)

(** "Empty or missing" payload and filter, in the words of the contract. *)
Definition empty_or_missing_payload (p : payload_t) : Prop :=
  p = PNone \/ p = PRecord [] \/ p = PRecords [].

Definition empty_or_missing_filter (f : option pydict) : Prop :=
  f = None \/ f = Some [].

(** [filtered sdk r0 entries r]: [r] is [r0] after one equality condition per
    entry, applied in order, each on the request the previous one returned. *)
Inductive filtered (sdk : SDK)
  : request sdk -> list (string * pyval) -> request sdk -> Prop :=
| filtered_nil : forall r, filtered sdk r [] r
| filtered_cons : forall r k v r' rest r'',
    sdk_eq sdk r k v = Ok r' ->
    filtered sdk r' rest r'' ->
    filtered sdk r ((k, v) :: rest) r''.

Definition eq_events (entries : list (string * pyval)) : list event :=
  map (fun kv => EqCond (fst kv) (snd kv)) entries.

(** "First non-empty value wins": the injected value if it is a non-empty
    string, else the fallback. *)
Definition first_non_empty (injected fallback : option string) : option string :=
  if str_truthy injected then injected else fallback.

(** The projected user record in the words of the contract: every field is
    the attribute's value, or [None] when the source object lacks it. *)
Definition spec_user_record (u : pyval) : pyval :=
  VDict [("id", py_getattr_default u "id" VNone);
         ("email", py_getattr_default u "email" VNone);
         ("created_at", py_getattr_default u "created_at" VNone);
         ("last_sign_in_at", py_getattr_default u "last_sign_in_at" VNone)].

(** ** A scripted SDK and sample inputs *)

(** An SDK double in the manner of the test suite's mock client: builder
    calls record what was asked, the three remote calls answer as scripted. *)
Definition scripted_sdk (on_execute on_list_users on_list_buckets : outcome pyval)
  : SDK :=
  {| client := string * string;
     builder := string;
     request := list event;
     create_client := fun url key => Ok (url, key);
     sdk_table := fun _ name => Ok name;
     sdk_select := fun b columns => Ok [Table b; Select columns];
     sdk_insert := fun b p => Ok [Table b; Insert p];
     sdk_update := fun b p => Ok [Table b; Update p];
     sdk_delete := fun b => Ok [Table b; Delete];
     sdk_eq := fun r k v => Ok (r ++ [EqCond k v]);
     sdk_execute := fun _ => on_execute;
     sdk_list_users := fun _ => on_list_users;
     sdk_list_buckets := fun _ => on_list_buckets |}.

Definition api_response (rows : list pyval) : pyval :=
  VObj "APIResponse" [("data", VList rows)].

Definition sample_row : pyval := VDict [("id", VInt 1); ("name", VStr "Test")].

Definition sample_user : pyval :=
  VObj "User" [("id", VStr "user-123"); ("email", VStr "test@example.com")].

Definition user_without_id : pyval :=
  VObj "User" [("email", VStr "test@example.com")].

Definition sample_bucket : pyval :=
  VObj "Bucket" [("id", VStr "bucket-1"); ("name", VStr "Public Assets")].

Definition connection_refused : exn :=
  MkExn (OtherException "ConnectError") "connection refused".

Definition healthy_sdk : SDK :=
  scripted_sdk (Ok (api_response [sample_row]))
               (Ok (VObj "UserResponse" [("users", VList [sample_user])]))
               (Ok (VList [sample_bucket])).

Definition failing_sdk : SDK :=
  scripted_sdk (Raise connection_refused) (Raise connection_refused)
               (Raise connection_refused).

(** An SDK whose user listing answers with the given user objects. *)
Definition users_sdk (us : list pyval) : SDK :=
  scripted_sdk (Raise connection_refused)
               (Ok (VObj "UserResponse" [("users", VList us)]))
               (Raise connection_refused).

(** An SDK whose user listing answers with an object without [users]. *)
Definition bare_response_sdk : SDK :=
  scripted_sdk (Raise connection_refused)
               (Ok (VObj "UserResponse" []))
               (Raise connection_refused).

Definition empty_environ : environ := fun _ => None.

Definition sample_environ : environ :=
  fun name =>
    if name =? SUPABASE_URL then Some "https://env.supabase.co"
    else if name =? SUPABASE_SERVICE_ROLE_KEY then Some "env-key"
    else None.

(** A credential store that knows the service-role key but raises
    [KeyError] for the URL. *)
Definition store_without_url : CredentialStoreAdapter :=
  {| get := fun name =>
       if name =? SUPABASE_SERVICE_ROLE_KEY then Ok (Some "store-key")
       else Raise (MkExn KeyError "'SUPABASE_URL'") |}.

Definition full_store : CredentialStoreAdapter :=
  {| get := fun name =>
       if name =? SUPABASE_URL then Ok (Some "https://store.supabase.co")
       else if name =? SUPABASE_SERVICE_ROLE_KEY then Ok (Some "store-key")
       else Raise (MkExn KeyError name) |}.

(** A result is well shaped when it has exactly one of the two shapes, and
    the [error] key tells which. *)
Definition well_shaped (d : pydict) : Prop :=
  (success_shaped d = true /\ error_shaped d = false
   /\ dict_has "error" d = false)
  \/ (error_shaped d = true /\ success_shaped d = false
      /\ dict_has "error" d = true).

(** ** Credential metadata *)

(** Modelled from the spec: the [CredentialSpec] class lives in
    [credentials/base.py], which is not among the sources at hand; the
    record carries the fields that the entries of [SUPABASE_CREDENTIALS]
    set. *)
Record CredentialSpec : Type := MkCredentialSpec {
  env_var : string;
  tools : list string;
  required : bool;
  help_url : string;
  description : string;
  credential_id : string;
  credential_key : string
}.

(** [credentials/supabase.py] *)
Definition SUPABASE_CREDENTIALS : list (string * CredentialSpec) :=
  [("supabase",
    {| env_var := "SUPABASE_URL";
       tools := ["supabase_db_query"; "supabase_auth_list_users";
                 "supabase_storage_list_buckets"];
       required := true;
       help_url := "https://supabase.com/dashboard/project/_/settings/api";
       description := "Supabase Project API URL";
       credential_id := "supabase";
       credential_key := "SUPABASE_URL" |});
   ("supabase_service",
    {| env_var := "SUPABASE_SERVICE_ROLE_KEY";
       tools := ["supabase_db_query"; "supabase_auth_list_users";
                 "supabase_storage_list_buckets"];
       required := true;
       help_url := "https://supabase.com/dashboard/project/_/settings/api";
       description := "Supabase Service Role Key (Admin Access)";
       credential_id := "supabase";
       credential_key := "SUPABASE_SERVICE_ROLE_KEY" |})].

(** ** Accounting of events *)

Definition lookup_event (ev : event) : bool :=
  match ev with CredentialGet _ => true | _ => false end.

Definition create_event (ev : event) : bool :=
  match ev with CreateClient _ _ => true | _ => false end.

(** The calls that reach the backend service. *)
Definition remote_event (ev : event) : bool :=
  match ev with Execute | ListUsers | ListBuckets => true | _ => false end.

Definition log_event (ev : event) : bool :=
  match ev with LogException _ _ => true | _ => false end.

(** The request builders that change rows. *)
Definition write_event (ev : event) : bool :=
  match ev with Insert _ | Update _ | Delete => true | _ => false end.

Definition count_events (P : event -> bool) (evs : list event) : nat :=
  List.length (filter P evs).

(** A property of what a computation yields and emits. *)
Definition post {A} (R : outcome A -> list event -> Prop) (m : M A) : Prop :=
  R (outcome_of m) (events_of m).

(** Where a resolved value can come from: the store's answer to the lookup
    of [name], or the environment variable [name]. *)
Definition provided_by (credentials : option CredentialStoreAdapter)
  (env : environ) (name value : string) : Prop :=
  (exists store, credentials = Some store /\ get store name = Ok (Some value))
  \/ os_getenv env name = Some value.

(** What the resolver yields and emits: some credential lookups, and then
    either nothing more and an exception, or the construction of one client
    from two non-empty values. *)
Definition resolved (sdk : SDK) (credentials : option CredentialStoreAdapter)
  (env : environ) (o : outcome (client sdk)) (evs : list event) : Prop :=
  exists lookups,
    forallb lookup_event lookups = true
    /\ ((evs = lookups /\ exists e, o = Raise e)
        \/ (exists u k,
              evs = lookups ++ [CreateClient u k]
              /\ u <> EmptyString /\ k <> EmptyString
              /\ provided_by credentials env SUPABASE_URL u
              /\ provided_by credentials env SUPABASE_SERVICE_ROLE_KEY k
              /\ o = create_client sdk u k)).

(** At most one client, at most one remote call, and no remote call without
    a client. *)
Definition accounted (evs : list event) : Prop :=
  count_events create_event evs <= 1
  /\ count_events remote_event evs <= 1
  /\ (count_events remote_event evs = 1 -> count_events create_event evs = 1).

(** What a [try] suite yields and emits before the handler takes over. *)
Definition suite_post (prefix : string) (o : outcome pydict)
  (evs : list event) : Prop :=
  count_events log_event evs = 0
  /\ accounted evs
  /\ match o with
     | Ok d =>
         (forall msg, d <> [("error", VStr (prefix ++ msg))])
         /\ (success_shaped d = true ->
             count_events remote_event evs = 1)
         /\ (error_shaped d = true -> count_events remote_event evs = 0)
     | Raise _ => True
     end.

(** ** More scripted collaborators *)

(** An SDK whose bucket listing answers with [resp]. *)
Definition buckets_sdk (resp : pyval) : SDK :=
  scripted_sdk (Raise connection_refused) (Raise connection_refused) (Ok resp).

(** An SDK whose [execute] answers with [resp]. *)
Definition execute_sdk (resp : pyval) : SDK :=
  scripted_sdk (Ok resp) (Raise connection_refused) (Raise connection_refused).

Definition unknown_column : exn :=
  MkExn (OtherException "APIError") "column does not exist".

(** An SDK that rejects an equality condition on the column [ghost]. *)
Definition strict_sdk : SDK :=
  {| client := string * string;
     builder := string;
     request := list event;
     create_client := fun url key => Ok (url, key);
     sdk_table := fun _ name => Ok name;
     sdk_select := fun b columns => Ok [Table b; Select columns];
     sdk_insert := fun b p => Ok [Table b; Insert p];
     sdk_update := fun b p => Ok [Table b; Update p];
     sdk_delete := fun b => Ok [Table b; Delete];
     sdk_eq := fun r k v =>
                 if k =? "ghost" then Raise unknown_column
                 else Ok (r ++ [EqCond k v]);
     sdk_execute := fun _ => Ok (api_response [sample_row]);
     sdk_list_users := fun _ => Raise connection_refused;
     sdk_list_buckets := fun _ => Raise connection_refused |}.

Definition vault_sealed : exn :=
  MkExn (OtherException "RuntimeError") "vault sealed".

(** A credential store that fails with something other than [KeyError]. *)
Definition broken_store : CredentialStoreAdapter :=
  {| get := fun _ => Raise vault_sealed |}.

(** ** Vocabulary for failures and for the order of events *)

(** What a tool yields once its handler has caught [e] after the events
    [evs]: the error dictionary with the tool's prefix, and the log record
    appended to the events. *)
Definition caught (prefix msg : string) (e : exn) (evs : list event)
  : M pydict :=
  (Ok [("error", VStr (prefix ++ exn_str e))], evs ++ [LogException msg e]).

Definition query_failure : exn -> list event -> M pydict :=
  caught "Failed to execute DB query: " "Supabase DB Query failed".

Definition users_failure : exn -> list event -> M pydict :=
  caught "Failed to list auth users: " "Supabase Auth List Users failed".

Definition buckets_failure : exn -> list event -> M pydict :=
  caught "Failed to list storage buckets: "
         "Supabase Storage List Buckets failed".

(** A computation whose events follow the events [evs]. *)
Definition prefixed {A} (evs : list event) (m : M A) : M A :=
  (outcome_of m, evs ++ events_of m).

(** [client_precedes seen evs]: every remote call in [evs] comes after the
    creation of a client, [seen] telling whether one was created before
    [evs]. *)
Fixpoint client_precedes (seen : bool) (evs : list event) : bool :=
  match evs with
  | [] => true
  | ev :: rest =>
      if remote_event ev then seen && client_precedes seen rest
      else client_precedes (seen || create_event ev) rest
  end.

(** * Properties *)

(** ** Laws of the effect monad *)

Lemma bind_Ok {A B} (m : M A) (f : A -> M B) a evs :
  m = (Ok a, evs) ->
  bind m f = (outcome_of (f a), evs ++ events_of (f a)).
Proof.
  intros ->. unfold bind, outcome_of, events_of. now destruct (f a).
Qed.

Lemma bind_Raise {A B} (m : M A) (f : A -> M B) e evs :
  m = (Raise e, evs) -> bind m f = (Raise e, evs).
Proof. now intros ->. Qed.

Lemma bind_ret {A B} (a : A) (f : A -> M B) : bind (ret a) f = f a.
Proof. unfold bind, ret. now destruct (f a). Qed.

Lemma bind_call_Ok {A B} ev (o : outcome A) (f : A -> M B) a :
  o = Ok a ->
  bind (call ev o) f = (outcome_of (f a), ev :: events_of (f a)).
Proof.
  intros ->. unfold bind, call, outcome_of, events_of. now destruct (f a).
Qed.

Lemma bind_call_Raise {A B} ev (o : outcome A) (f : A -> M B) e :
  o = Raise e -> bind (call ev o) f = (Raise e, [ev]).
Proof. now intros ->. Qed.

Lemma try_except_Ok {A} (body : M A) h a evs :
  body = (Ok a, evs) -> try_except body h = (Ok a, evs).
Proof. now intros ->. Qed.

(** What every tool's handler does with a caught exception. *)
Lemma caught_and_logged (body : M pydict) msg prefix e evs :
  body = (Raise e, evs) ->
  try_except body
    (fun e => emit (LogException msg e) ;;;
              ret (error_dict (prefix ++ exn_str e)))
  = (Ok (error_dict (prefix ++ exn_str e)), evs ++ [LogException msg e]).
Proof. now intros ->. Qed.

(** ** Reasoning about emitted events and returned values *)

Lemma emits_ret {A} P (a : A) : emits P (ret a).
Proof. reflexivity. Qed.

Lemma emits_raise {A} P e : emits P (@raise A e).
Proof. reflexivity. Qed.

Lemma emits_call {A} (P : event -> bool) ev (o : outcome A) :
  P ev = true -> emits P (call ev o).
Proof. unfold emits, call, events_of. simpl. now intros ->. Qed.

Lemma emits_emit (P : event -> bool) ev : P ev = true -> emits P (emit ev).
Proof. unfold emits, emit, events_of. simpl. now intros ->. Qed.

Lemma emits_bind {A B} P (m : M A) (f : A -> M B) :
  emits P m -> (forall a, emits P (f a)) -> emits P (bind m f).
Proof.
  unfold emits, events_of, bind. destruct m as [[a | e] evs]; simpl.
  - intros Hm Hf. specialize (Hf a). destruct (f a) as [o evs']. simpl in *.
    rewrite forallb_app. now rewrite Hm, Hf.
  - auto.
Qed.

Lemma emits_try_except {A} P (body : M A) h :
  emits P body -> (forall e, emits P (h e)) -> emits P (try_except body h).
Proof.
  unfold emits, events_of, try_except. destruct body as [[a | e] evs]; simpl.
  - auto.
  - intros Hm Hh. specialize (Hh e). destruct (h e) as [o evs']. simpl in *.
    rewrite forallb_app. now rewrite Hm, Hh.
Qed.

Lemma emits_weaken {A} (P Q : event -> bool) (m : M A) :
  (forall ev, P ev = true -> Q ev = true) -> emits P m -> emits Q m.
Proof.
  unfold emits. intros HPQ. induction (events_of m) as [| ev evs IH]; simpl.
  - reflexivity.
  - rewrite !andb_true_iff. intros [H1 H2]. split; auto.
Qed.

Lemma returns_ret {A} (Q : A -> Prop) a : Q a -> returns Q (ret a).
Proof. exact (fun H => H). Qed.

Lemma returns_raise {A} (Q : A -> Prop) e : returns Q (raise e).
Proof. exact I. Qed.

Lemma returns_bind {A B} (Q : B -> Prop) (m : M A) (f : A -> M B) :
  (forall a, returns Q (f a)) -> returns Q (bind m f).
Proof.
  unfold returns, outcome_of, bind. intros Hf.
  destruct m as [[a | e] evs]; simpl; [| exact I].
  specialize (Hf a). now destruct (f a).
Qed.

(** A guarded tool always returns: either what its [try] suite returned or
    the handler's error dictionary. *)
Lemma guarded_returns (Q : pydict -> Prop) (body : M pydict) msg prefix :
  returns Q body ->
  (forall e, Q (error_dict (prefix ++ exn_str e))) ->
  exists d,
    outcome_of (try_except body
                  (fun e => emit (LogException msg e) ;;;
                            ret (error_dict (prefix ++ exn_str e)))) = Ok d
    /\ Q d.
Proof.
  unfold returns, outcome_of. destruct body as [[d | e] evs]; simpl.
  - intros Hd _. now exists d.
  - intros _ He. eexists. split; [reflexivity | apply He].
Qed.

Ltac emits_step :=
  match goal with
  | |- emits _ (bind _ _) => apply emits_bind; [| intros ?]
  | |- emits _ (try_except _ _) => apply emits_try_except; [| intros ?]
  | |- emits _ (ret _) => apply emits_ret
  | |- emits _ (raise _) => apply emits_raise
  | |- emits _ (call _ _) => apply emits_call; reflexivity
  | |- emits _ (emit _) => apply emits_emit; reflexivity
  | |- emits _ (if ?c then _ else _) => destruct c
  | |- emits _ (match ?x with Some _ => _ | None => _ end) => destruct x
  end.

Ltac returns_step :=
  match goal with
  | |- returns _ (bind _ _) => apply returns_bind; intros ?
  | |- returns _ (ret _) => apply returns_ret
  | |- returns _ (raise _) => apply returns_raise
  | |- returns _ (if ?c then _ else _) => destruct c
  end.

(** ** The resolver and the loops *)

Lemma credentials_lookup_emits credentials :
  emits setup_event (credentials_lookup credentials).
Proof.
  unfold credentials_lookup, call. destruct credentials as [c |]; [| reflexivity].
  destruct (get c SUPABASE_URL) as [url | e].
  - destruct (get c SUPABASE_SERVICE_ROLE_KEY) as [key | e].
    + reflexivity.
    + now destruct (is_KeyError e).
  - now destruct (is_KeyError e).
Qed.

Lemma get_supabase_client_emits sdk credentials env :
  emits setup_event (_get_supabase_client sdk credentials env).
Proof.
  unfold _get_supabase_client.
  apply emits_bind; [apply credentials_lookup_emits |].
  intros [url key]. cbv zeta.
  repeat emits_step.
Qed.

Lemma apply_filters_filtered sdk r entries r' :
  filtered sdk r entries r' ->
  apply_filters sdk r entries = (Ok r', eq_events entries).
Proof.
  induction 1 as [| r k v r' rest r'' Heq _ IH]; cbn [apply_filters].
  - reflexivity.
  - rewrite (bind_call_Ok _ _ _ r' Heq), IH. reflexivity.
Qed.

Lemma apply_filters_emits sdk (P : event -> bool) r entries :
  (forall k v, P (EqCond k v) = true) ->
  emits P (apply_filters sdk r entries).
Proof.
  intros HP. revert r.
  induction entries as [| [k v] rest IH]; intros r; cbn [apply_filters].
  - apply emits_ret.
  - apply emits_bind; [apply emits_call, HP | intros r'; apply IH].
Qed.

Lemma users_loop_all_ids us : forall acc,
  (forall u, In u us -> py_hasattr u "id" = true) ->
  users_loop us acc = (Ok (acc ++ map spec_user_record us), []).
Proof.
  induction us as [| u rest IH]; intros acc Hid; cbn [users_loop map].
  - unfold ret. now rewrite app_nil_r.
  - assert (Hu : py_hasattr u "id" = true) by (apply Hid; now left).
    unfold project_user, py_getattr, spec_user_record at 1, py_getattr_default.
    unfold py_hasattr, dict_has in Hu.
    destruct (dict_get "id" (py_attrs u)) as [i |] eqn:Hi; [| discriminate].
    rewrite !bind_ret, IH by (intros; apply Hid; now right).
    now rewrite <- app_assoc.
Qed.

Lemma users_loop_missing_id pre u post : forall acc,
  (forall x, In x pre -> py_hasattr x "id" = true) ->
  py_hasattr u "id" = false ->
  users_loop (pre ++ u :: post) acc = (Raise (attribute_error u "id"), []).
Proof.
  induction pre as [| x pre IH]; intros acc Hpre Hu; cbn [users_loop app].
  - unfold project_user, py_getattr.
    unfold py_hasattr, dict_has in Hu.
    destruct (dict_get "id" (py_attrs u)); [discriminate | reflexivity].
  - assert (Hx : py_hasattr x "id" = true) by (apply Hpre; now left).
    unfold project_user at 1, py_getattr.
    unfold py_hasattr, dict_has in Hx.
    destruct (dict_get "id" (py_attrs x)) as [i |]; [| discriminate].
    rewrite !bind_ret. apply IH; [intros; apply Hpre; now right | exact Hu].
Qed.

Lemma buckets_loop_map bs : forall acc,
  buckets_loop bs acc = acc ++ map project_bucket bs.
Proof.
  induction bs as [| b rest IH]; intros acc; simpl.
  - now rewrite app_nil_r.
  - now rewrite IH, <- app_assoc.
Qed.

(** ** The guard around each tool *)

Lemma db_query_caught sdk credentials env table action qf p e evs :
  supabase_db_query_try sdk credentials env table action qf p = (Raise e, evs) ->
  supabase_db_query sdk credentials env table action qf p
  = (Ok (error_dict ("Failed to execute DB query: " ++ exn_str e)),
     evs ++ [LogException "Supabase DB Query failed" e]).
Proof. intros H. unfold supabase_db_query. now apply caught_and_logged. Qed.

Lemma auth_list_users_caught sdk credentials env e evs :
  supabase_auth_list_users_try sdk credentials env = (Raise e, evs) ->
  supabase_auth_list_users sdk credentials env
  = (Ok (error_dict ("Failed to list auth users: " ++ exn_str e)),
     evs ++ [LogException "Supabase Auth List Users failed" e]).
Proof. intros H. unfold supabase_auth_list_users. now apply caught_and_logged. Qed.

Lemma storage_list_buckets_caught sdk credentials env e evs :
  supabase_storage_list_buckets_try sdk credentials env = (Raise e, evs) ->
  supabase_storage_list_buckets sdk credentials env
  = (Ok (error_dict ("Failed to list storage buckets: " ++ exn_str e)),
     evs ++ [LogException "Supabase Storage List Buckets failed" e]).
Proof.
  intros H. unfold supabase_storage_list_buckets. now apply caught_and_logged.
Qed.

Lemma db_query_returned sdk credentials env table action qf p d evs :
  supabase_db_query_try sdk credentials env table action qf p = (Ok d, evs) ->
  supabase_db_query sdk credentials env table action qf p = (Ok d, evs).
Proof. intros H. unfold supabase_db_query. now apply try_except_Ok. Qed.

Lemma auth_list_users_returned sdk credentials env d evs :
  supabase_auth_list_users_try sdk credentials env = (Ok d, evs) ->
  supabase_auth_list_users sdk credentials env = (Ok d, evs).
Proof. intros H. unfold supabase_auth_list_users. now apply try_except_Ok. Qed.

Lemma storage_list_buckets_returned sdk credentials env d evs :
  supabase_storage_list_buckets_try sdk credentials env = (Ok d, evs) ->
  supabase_storage_list_buckets sdk credentials env = (Ok d, evs).
Proof.
  intros H. unfold supabase_storage_list_buckets. now apply try_except_Ok.
Qed.

(** The resolver is the first statement of every [try] suite, so whatever it
    raises is what the suite raises. *)
Lemma resolver_failure_in_suites sdk credentials env e evs :
  _get_supabase_client sdk credentials env = (Raise e, evs) ->
  (forall table action qf p,
      supabase_db_query_try sdk credentials env table action qf p
      = (Raise e, evs))
  /\ supabase_auth_list_users_try sdk credentials env = (Raise e, evs)
  /\ supabase_storage_list_buckets_try sdk credentials env = (Raise e, evs).
Proof.
  intros H. repeat split; intros;
    unfold supabase_db_query_try, supabase_auth_list_users_try,
      supabase_storage_list_buckets_try;
    now rewrite (bind_Raise _ _ _ _ H).
Qed.

(** ** C1: credential misconfiguration *)

(** C1, as stated, fails: with no credential store and an empty environment
    the resolver raises the configuration error, and each of the three tools
    catches it, logs it and returns an error dictionary; none of them
    raises. *)
Lemma missing_credentials_do_not_escape :
  _get_supabase_client healthy_sdk None empty_environ
  = (Raise missing_credentials, [])
  /\ supabase_db_query healthy_sdk None empty_environ "users" "select" None PNone
     = (Ok [("error",
             VStr "Failed to execute DB query: SUPABASE_URL and SUPABASE_SERVICE_ROLE_KEY are required to use the Supabase tool")],
        [LogException "Supabase DB Query failed" missing_credentials])
  /\ raises (supabase_db_query healthy_sdk None empty_environ
               "users" "select" None PNone) = false
  /\ raises (supabase_auth_list_users healthy_sdk None empty_environ) = false
  /\ raises (supabase_storage_list_buckets healthy_sdk None empty_environ)
     = false.
Proof. repeat split; reflexivity. Qed.

(** C1 (amended): when credential resolution fails with the configuration
    error, the error is raised inside the [try] block of each tool; the tool
    catches it, logs it and returns the error dictionary carrying the tool's
    prefix and the configuration message.  It does not reach the caller as
    an exception. *)
Theorem configuration_error_is_converted :
  forall sdk credentials env evs,
    _get_supabase_client sdk credentials env = (Raise missing_credentials, evs) ->
    (forall table action qf p,
        supabase_db_query sdk credentials env table action qf p
        = (Ok [("error",
                VStr "Failed to execute DB query: SUPABASE_URL and SUPABASE_SERVICE_ROLE_KEY are required to use the Supabase tool")],
           evs ++ [LogException "Supabase DB Query failed" missing_credentials]))
    /\ supabase_auth_list_users sdk credentials env
       = (Ok [("error",
               VStr "Failed to list auth users: SUPABASE_URL and SUPABASE_SERVICE_ROLE_KEY are required to use the Supabase tool")],
          evs ++ [LogException "Supabase Auth List Users failed"
                               missing_credentials])
    /\ supabase_storage_list_buckets sdk credentials env
       = (Ok [("error",
               VStr "Failed to list storage buckets: SUPABASE_URL and SUPABASE_SERVICE_ROLE_KEY are required to use the Supabase tool")],
          evs ++ [LogException "Supabase Storage List Buckets failed"
                               missing_credentials]).
Proof.
  intros sdk credentials env evs H.
  destruct (resolver_failure_in_suites _ _ _ _ _ H) as (Hq & Hu & Hb).
  repeat split; intros.
  - now rewrite (db_query_caught _ _ _ _ _ _ _ _ _ (Hq table action qf p)).
  - now rewrite (auth_list_users_caught _ _ _ _ _ Hu).
  - now rewrite (storage_list_buckets_caught _ _ _ _ _ Hb).
Qed.

Lemma configuration_error_is_converted_witness :
  _get_supabase_client failing_sdk None empty_environ
  = (Raise missing_credentials, [])
  /\ supabase_auth_list_users failing_sdk None empty_environ
     = (Ok [("error",
             VStr "Failed to list auth users: SUPABASE_URL and SUPABASE_SERVICE_ROLE_KEY are required to use the Supabase tool")],
        [] ++ [LogException "Supabase Auth List Users failed"
                            missing_credentials]).
Proof.
  split; [reflexivity |].
  apply (configuration_error_is_converted failing_sdk None empty_environ []).
  reflexivity.
Defined.

(** ** C8: the two result shapes *)

Ltac shape_leaf :=
  first [ left; repeat split; reflexivity
        | right; repeat split; reflexivity ].

Lemma db_query_try_well_shaped sdk credentials env table action qf p :
  returns well_shaped
    (supabase_db_query_try sdk credentials env table action qf p).
Proof.
  unfold supabase_db_query_try, error_dict.
  repeat returns_step; shape_leaf.
Qed.

Lemma auth_list_users_try_well_shaped sdk credentials env :
  returns well_shaped (supabase_auth_list_users_try sdk credentials env).
Proof.
  unfold supabase_auth_list_users_try.
  repeat returns_step; shape_leaf.
Qed.

Lemma storage_list_buckets_try_well_shaped sdk credentials env :
  returns well_shaped (supabase_storage_list_buckets_try sdk credentials env).
Proof.
  unfold supabase_storage_list_buckets_try. cbv zeta.
  repeat returns_step; shape_leaf.
Qed.

Lemma error_dict_well_shaped msg : well_shaped (error_dict msg).
Proof. unfold error_dict. shape_leaf. Qed.

(** C8: every invocation of each of the three tools, whatever the SDK, the
    credential store and the environment do, returns a dictionary (it never
    raises), and that dictionary has exactly one of the two shapes: success
    shaped ([success: True] and [data], no [error] key) or error shaped (an
    [error] key, neither [success] nor [data]).  No dictionary has both
    shapes, and the [error] key is present exactly in the error shape. *)
Theorem every_result_has_one_shape :
  forall sdk credentials env,
    (forall table action qf p,
        exists d,
          outcome_of (supabase_db_query sdk credentials env table action qf p)
          = Ok d
          /\ well_shaped d)
    /\ (exists d,
          outcome_of (supabase_auth_list_users sdk credentials env) = Ok d
          /\ well_shaped d)
    /\ (exists d,
          outcome_of (supabase_storage_list_buckets sdk credentials env) = Ok d
          /\ well_shaped d)
    /\ (forall d, success_shaped d && error_shaped d = false).
Proof.
  intros sdk credentials env. repeat split.
  - intros. apply guarded_returns.
    + apply db_query_try_well_shaped.
    + intros e. apply error_dict_well_shaped.
  - apply guarded_returns.
    + apply auth_list_users_try_well_shaped.
    + intros e. apply error_dict_well_shaped.
  - apply guarded_returns.
    + apply storage_list_buckets_try_well_shaped.
    + intros e. apply error_dict_well_shaped.
  - intros d. unfold success_shaped, error_shaped, dict_has.
    destruct (dict_get "success" d) as [[| [|] | | | | |] |];
      try reflexivity;
      destruct (dict_get "data" d), (dict_get "error" d); reflexivity.
Qed.

(** ** C3: unknown actions *)

Lemma guarded_never_raises (body : M pydict) msg prefix :
  raises (try_except body
            (fun e => emit (LogException msg e) ;;;
                      ret (error_dict (prefix ++ exn_str e)))) = false.
Proof. now destruct body as [[d | e] evs]. Qed.

Lemma handler_emits msg prefix e :
  emits setup_event
    (emit (LogException msg e) ;;; ret (error_dict (prefix ++ exn_str e))).
Proof. reflexivity. Qed.

(** The events up to the table handle are set-up events. *)
Lemma validation_emits sdk credentials env table (d : pydict) :
  emits setup_event
    (client <- _get_supabase_client sdk credentials env ;;
     builder <- call (Table table) (sdk_table sdk client table) ;;
     ret d).
Proof.
  apply emits_bind; [apply get_supabase_client_emits | intros c].
  repeat emits_step.
Qed.

(** C3: for an action outside select, insert, update and delete the tool
    raises nothing and neither builds nor executes a request (its only
    events are credential lookups, the client and table handles, and log
    records); once the client and the table handle are obtained, it returns
    exactly the unknown-action error dictionary. *)
Theorem unknown_action_rejected :
  forall sdk credentials env table action qf p,
    action <> "select" -> action <> "insert" ->
    action <> "update" -> action <> "delete" ->
    raises (supabase_db_query sdk credentials env table action qf p) = false
    /\ emits setup_event
         (supabase_db_query sdk credentials env table action qf p)
    /\ (forall c b evs,
           _get_supabase_client sdk credentials env = (Ok c, evs) ->
           sdk_table sdk c table = Ok b ->
           supabase_db_query sdk credentials env table action qf p
           = (Ok [("error",
                   VStr ("Unknown action: " ++ action
                         ++ ". Use select, insert, update, or delete."))],
              evs ++ [Table table])).
Proof.
  intros sdk credentials env table action qf p Hs Hi Hu Hd.
  apply String.eqb_neq in Hs, Hi, Hu, Hd.
  split; [apply guarded_never_raises |].
  split.
  - unfold supabase_db_query. apply emits_try_except.
    + unfold supabase_db_query_try. rewrite Hs, Hi, Hu, Hd.
      apply validation_emits.
    + intros e. apply handler_emits.
  - intros c b evs Hc Ht. apply db_query_returned.
    unfold supabase_db_query_try. rewrite Hs, Hi, Hu, Hd.
    rewrite (bind_Ok _ _ _ _ Hc), (bind_call_Ok _ _ _ _ Ht). reflexivity.
Qed.

Lemma unknown_action_rejected_witness :
  raises (supabase_db_query healthy_sdk (Some full_store) empty_environ
            "users" "upsert" None PNone) = false
  /\ emits setup_event
       (supabase_db_query healthy_sdk (Some full_store) empty_environ
          "users" "upsert" None PNone)
  /\ supabase_db_query healthy_sdk (Some full_store) empty_environ
       "users" "upsert" None PNone
     = (Ok [("error",
             VStr "Unknown action: upsert. Use select, insert, update, or delete.")],
        [CredentialGet "SUPABASE_URL"; CredentialGet "SUPABASE_SERVICE_ROLE_KEY";
         CreateClient "https://store.supabase.co" "store-key"; Table "users"]).
Proof.
  destruct (unknown_action_rejected healthy_sdk (Some full_store) empty_environ
              "users" "upsert" None PNone) as (Hr & He & Hx);
    try discriminate.
  split; [exact Hr |]. split; [exact He |].
  exact (Hx ("https://store.supabase.co", "store-key") "users" _
            eq_refl eq_refl).
Defined.

(** ** C4: required fields *)

Lemma payload_truthy_false p :
  empty_or_missing_payload p <-> payload_truthy p = false.
Proof.
  unfold empty_or_missing_payload. split.
  - intros [-> | [-> | ->]]; reflexivity.
  - destruct p as [| [| x d] | [| x l]]; simpl; intros H;
      try discriminate; auto.
Qed.

Lemma filter_truthy_false qf :
  empty_or_missing_filter qf <-> filter_truthy qf = false.
Proof.
  unfold empty_or_missing_filter. split.
  - intros [-> | ->]; reflexivity.
  - destruct qf as [[| x d] |]; simpl; intros H; try discriminate; auto.
Qed.

Ltac literal_actions := cbn [String.eqb Ascii.eqb Bool.eqb].

Lemma guarded_validation_emits sdk credentials env table msg prefix (d : pydict) :
  emits setup_event
    (try_except
       (client <- _get_supabase_client sdk credentials env ;;
        builder <- call (Table table) (sdk_table sdk client table) ;;
        ret d)
       (fun e => emit (LogException msg e) ;;;
                 ret (error_dict (prefix ++ exn_str e)))).
Proof.
  apply emits_try_except; [apply validation_emits | intros e; apply handler_emits].
Qed.

Lemma validation_returns sdk credentials env table c b evs (d : pydict) :
  _get_supabase_client sdk credentials env = (Ok c, evs) ->
  sdk_table sdk c table = Ok b ->
  (client <- _get_supabase_client sdk credentials env ;;
   builder <- call (Table table) (sdk_table sdk client table) ;;
   ret d)
  = (Ok d, evs ++ [Table table]).
Proof.
  intros Hc Ht.
  rewrite (bind_Ok _ _ _ _ Hc), (bind_call_Ok _ _ _ _ Ht). reflexivity.
Qed.

(** C4: with an empty or missing payload, insert and update return the
    payload error (update checks the payload before the filter); update
    with a payload but an empty or missing filter, and delete with an empty
    or missing filter, return the filter error.  In each of these cases no
    request is built or executed, whatever the SDK does; the exact
    dictionaries are returned once the client and the table handle are
    obtained. *)
Theorem missing_required_fields_rejected :
  forall sdk credentials env table,
    (forall qf p,
        empty_or_missing_payload p ->
        emits setup_event
          (supabase_db_query sdk credentials env table "insert" qf p)
        /\ emits setup_event
             (supabase_db_query sdk credentials env table "update" qf p))
    /\ (forall qf p,
        empty_or_missing_filter qf ->
        emits setup_event
          (supabase_db_query sdk credentials env table "update" qf p)
        /\ emits setup_event
             (supabase_db_query sdk credentials env table "delete" qf p))
    /\ (forall c b evs,
        _get_supabase_client sdk credentials env = (Ok c, evs) ->
        sdk_table sdk c table = Ok b ->
        (forall qf p,
            empty_or_missing_payload p ->
            supabase_db_query sdk credentials env table "insert" qf p
            = (Ok [("error", VStr "payload is required for insert action")],
               evs ++ [Table table]))
        /\ (forall qf p,
            empty_or_missing_payload p ->
            supabase_db_query sdk credentials env table "update" qf p
            = (Ok [("error", VStr "payload is required for update action")],
               evs ++ [Table table]))
        /\ (forall qf p,
            ~ empty_or_missing_payload p ->
            empty_or_missing_filter qf ->
            supabase_db_query sdk credentials env table "update" qf p
            = (Ok [("error", VStr "query_filter is required for update action")],
               evs ++ [Table table]))
        /\ (forall qf p,
            empty_or_missing_filter qf ->
            supabase_db_query sdk credentials env table "delete" qf p
            = (Ok [("error", VStr "query_filter is required for delete action")],
               evs ++ [Table table]))).
Proof.
  intros sdk credentials env table.
  split; [| split].
  - intros qf p Hp. apply payload_truthy_false in Hp.
    split; unfold supabase_db_query, supabase_db_query_try; literal_actions;
      rewrite Hp; apply guarded_validation_emits.
  - intros qf p Hq. apply filter_truthy_false in Hq.
    split; unfold supabase_db_query, supabase_db_query_try; literal_actions;
      rewrite Hq; [destruct (payload_truthy p) |];
      apply guarded_validation_emits.
  - intros c b evs Hc Ht.
    split; [| split; [| split]].
    + intros qf p Hp. apply payload_truthy_false in Hp.
      apply db_query_returned. unfold supabase_db_query_try. literal_actions.
      rewrite Hp. exact (validation_returns _ _ _ _ c b evs _ Hc Ht).
    + intros qf p Hp. apply payload_truthy_false in Hp.
      apply db_query_returned. unfold supabase_db_query_try. literal_actions.
      rewrite Hp. exact (validation_returns _ _ _ _ c b evs _ Hc Ht).
    + intros qf p Hp Hq. apply filter_truthy_false in Hq.
      assert (Hp' : payload_truthy p = true).
      { destruct (payload_truthy p) eqn:E; [reflexivity |].
        exfalso. apply Hp. now apply payload_truthy_false. }
      apply db_query_returned. unfold supabase_db_query_try. literal_actions.
      rewrite Hp', Hq. exact (validation_returns _ _ _ _ c b evs _ Hc Ht).
    + intros qf p Hq. apply filter_truthy_false in Hq.
      apply db_query_returned. unfold supabase_db_query_try. literal_actions.
      rewrite Hq. exact (validation_returns _ _ _ _ c b evs _ Hc Ht).
Qed.

Lemma missing_required_fields_rejected_witness :
  supabase_db_query healthy_sdk None sample_environ
    "users" "update" None (PRecords [])
  = (Ok [("error", VStr "payload is required for update action")],
     [CreateClient "https://env.supabase.co" "env-key"; Table "users"])
  /\ supabase_db_query healthy_sdk None sample_environ
       "users" "update" (Some []) (PRecord [("name", VStr "Test")])
     = (Ok [("error", VStr "query_filter is required for update action")],
        [CreateClient "https://env.supabase.co" "env-key"; Table "users"])
  /\ emits setup_event
       (supabase_db_query healthy_sdk None sample_environ
          "users" "delete" None PNone).
Proof.
  destruct (missing_required_fields_rejected
              healthy_sdk None sample_environ "users") as (_ & Hquiet & Hexact).
  destruct (Hexact ("https://env.supabase.co", "env-key") "users"
              [CreateClient "https://env.supabase.co" "env-key"]
              eq_refl eq_refl) as (_ & Hpayload & Hfilter & _).
  split; [| split].
  - apply (Hpayload None (PRecords [])). right. right. reflexivity.
  - apply (Hfilter (Some []) (PRecord [("name", VStr "Test")])).
    + intros [H | [H | H]]; discriminate H.
    + right. reflexivity.
  - apply (Hquiet None PNone). left. reflexivity.
Defined.

(** ** C5: select, and the results without a count *)

Lemma filter_loop_filtered sdk r0 qf r :
  filtered sdk r0 (items qf) r ->
  (if filter_truthy qf then apply_filters sdk r0 (items qf) else ret r0)
  = (Ok r, eq_events (items qf)).
Proof.
  intros Hf. destruct (filter_truthy qf) eqn:Hq.
  - now apply apply_filters_filtered.
  - destruct qf as [[| kv d] |]; try discriminate; inversion Hf; reflexivity.
Qed.

Lemma data_attribute res data :
  dict_get "data" (py_attrs res) = Some data ->
  py_getattr res "data" = ret data.
Proof. unfold py_getattr. now intros ->. Qed.

Lemma no_count_in_try sdk credentials env table action qf p :
  action <> "select" ->
  returns (fun d => dict_has "count" d = false)
    (supabase_db_query_try sdk credentials env table action qf p).
Proof.
  intros Hs. apply String.eqb_neq in Hs.
  unfold supabase_db_query_try, error_dict. rewrite Hs.
  repeat returns_step; reflexivity.
Qed.

(** C5: once the client and the table handle are obtained and the SDK
    answers, select asks for all columns, applies one equality condition
    per filter entry, in order and all on the one request it then executes,
    and returns [success], the records and [count], the number of records.
    The results of insert, update and delete carry [success] and [data]
    only, and whatever insert, update or delete returns has no [count]
    key. *)
Theorem select_filters_and_counts :
  forall sdk credentials env table c b evs,
    _get_supabase_client sdk credentials env = (Ok c, evs) ->
    sdk_table sdk c table = Ok b ->
    (forall qf p r0 r res rows,
        sdk_select sdk b "*" = Ok r0 ->
        filtered sdk r0 (items qf) r ->
        sdk_execute sdk r = Ok res ->
        dict_get "data" (py_attrs res) = Some (VList rows) ->
        supabase_db_query sdk credentials env table "select" qf p
        = (Ok [("success", VBool true); ("data", VList rows);
               ("count", VInt (Z.of_nat (List.length rows)))],
           evs ++ [Table table; Select "*"] ++ eq_events (items qf)
               ++ [Execute]))
    /\ (forall qf p r res data,
        payload_truthy p = true ->
        sdk_insert sdk b p = Ok r ->
        sdk_execute sdk r = Ok res ->
        dict_get "data" (py_attrs res) = Some data ->
        supabase_db_query sdk credentials env table "insert" qf p
        = (Ok [("success", VBool true); ("data", data)],
           evs ++ [Table table; Insert p; Execute]))
    /\ (forall qf p r0 r res data,
        payload_truthy p = true ->
        filter_truthy qf = true ->
        sdk_update sdk b p = Ok r0 ->
        filtered sdk r0 (items qf) r ->
        sdk_execute sdk r = Ok res ->
        dict_get "data" (py_attrs res) = Some data ->
        supabase_db_query sdk credentials env table "update" qf p
        = (Ok [("success", VBool true); ("data", data)],
           evs ++ [Table table; Update p] ++ eq_events (items qf)
               ++ [Execute]))
    /\ (forall qf p r0 r res data,
        filter_truthy qf = true ->
        sdk_delete sdk b = Ok r0 ->
        filtered sdk r0 (items qf) r ->
        sdk_execute sdk r = Ok res ->
        dict_get "data" (py_attrs res) = Some data ->
        supabase_db_query sdk credentials env table "delete" qf p
        = (Ok [("success", VBool true); ("data", data)],
           evs ++ [Table table; Delete] ++ eq_events (items qf)
               ++ [Execute]))
    /\ (forall action qf p,
        action = "insert" \/ action = "update" \/ action = "delete" ->
        exists d,
          outcome_of (supabase_db_query sdk credentials env table action qf p)
          = Ok d
          /\ dict_has "count" d = false).
Proof.
  intros sdk credentials env table c b evs Hc Ht.
  split; [| split; [| split; [| split]]].
  - intros qf p r0 r res rows Hs Hf Hx Hd.
    apply db_query_returned. unfold supabase_db_query_try. literal_actions.
    rewrite (bind_Ok _ _ _ _ Hc), (bind_call_Ok _ _ _ _ Ht),
      (bind_call_Ok _ _ _ _ Hs), (bind_Ok _ _ _ _ (filter_loop_filtered _ _ _ _ Hf)),
      (bind_call_Ok _ _ _ _ Hx), (data_attribute _ _ Hd), !bind_ret.
    cbn [py_len]. rewrite bind_ret.
    reflexivity.
  - intros qf p r res data Hp Hi Hx Hd.
    apply db_query_returned. unfold supabase_db_query_try. literal_actions.
    rewrite Hp. cbn [negb].
    rewrite (bind_Ok _ _ _ _ Hc), (bind_call_Ok _ _ _ _ Ht),
      (bind_call_Ok _ _ _ _ Hi), (bind_call_Ok _ _ _ _ Hx),
      (data_attribute _ _ Hd), !bind_ret.
    reflexivity.
  - intros qf p r0 r res data Hp Hq Hu Hf Hx Hd.
    apply db_query_returned. unfold supabase_db_query_try. literal_actions.
    rewrite Hp, Hq. cbn [negb].
    rewrite (bind_Ok _ _ _ _ Hc), (bind_call_Ok _ _ _ _ Ht),
      (bind_call_Ok _ _ _ _ Hu),
      (bind_Ok _ _ _ _ (apply_filters_filtered _ _ _ _ Hf)),
      (bind_call_Ok _ _ _ _ Hx), (data_attribute _ _ Hd), !bind_ret.
    reflexivity.
  - intros qf p r0 r res data Hq Hdel Hf Hx Hd.
    apply db_query_returned. unfold supabase_db_query_try. literal_actions.
    rewrite Hq. cbn [negb].
    rewrite (bind_Ok _ _ _ _ Hc), (bind_call_Ok _ _ _ _ Ht),
      (bind_call_Ok _ _ _ _ Hdel),
      (bind_Ok _ _ _ _ (apply_filters_filtered _ _ _ _ Hf)),
      (bind_call_Ok _ _ _ _ Hx), (data_attribute _ _ Hd), !bind_ret.
    reflexivity.
  - intros action qf p Ha. apply guarded_returns.
    + apply no_count_in_try. destruct Ha as [-> | [-> | ->]]; discriminate.
    + reflexivity.
Qed.

Lemma select_filters_and_counts_witness :
  supabase_db_query healthy_sdk None sample_environ
    "users" "select" (Some [("status", VStr "active")]) PNone
  = (Ok [("success", VBool true); ("data", VList [sample_row]);
         ("count", VInt 1)],
     [CreateClient "https://env.supabase.co" "env-key"; Table "users";
      Select "*"; EqCond "status" (VStr "active"); Execute]).
Proof.
  destruct (select_filters_and_counts healthy_sdk None sample_environ "users"
              ("https://env.supabase.co", "env-key") "users"
              [CreateClient "https://env.supabase.co" "env-key"]
              eq_refl eq_refl) as (Hselect & _).
  exact (Hselect (Some [("status", VStr "active")]) PNone
           [Table "users"; Select "*"]
           [Table "users"; Select "*"; EqCond "status" (VStr "active")]
           (api_response [sample_row]) [sample_row]
           eq_refl
           (filtered_cons healthy_sdk _ _ _ _ _ _ eq_refl
              (filtered_nil healthy_sdk _))
           eq_refl eq_refl).
Defined.

(** ** C6: the credential fallback chain *)

Lemma fallback_first_non_empty (injected fallback : option string) :
  (if negb (str_truthy injected) then fallback else injected)
  = first_non_empty injected fallback.
Proof. unfold first_non_empty. now destruct (str_truthy injected). Qed.

Lemma str_truthy_Some s : s <> EmptyString -> str_truthy (Some s) = true.
Proof. destruct s; [contradiction | reflexivity]. Qed.

(** What the resolver does with the pair the lookups left behind. *)
Lemma client_of_lookup sdk credentials env u k evs U K :
  credentials_lookup credentials = (Ok (u, k), evs) ->
  first_non_empty u (os_getenv env SUPABASE_URL) = Some U ->
  first_non_empty k (os_getenv env SUPABASE_SERVICE_ROLE_KEY) = Some K ->
  U <> EmptyString -> K <> EmptyString ->
  _get_supabase_client sdk credentials env
  = (create_client sdk U K, evs ++ [CreateClient U K]).
Proof.
  intros Hl Hu Hk HU HK. unfold _get_supabase_client.
  rewrite (bind_Ok _ _ _ _ Hl). cbv zeta. cbn [fst snd].
  rewrite !fallback_first_non_empty, Hu, Hk.
  rewrite (str_truthy_Some _ HU), (str_truthy_Some _ HK). reflexivity.
Qed.

Lemma client_of_lookup_missing sdk credentials env u k evs :
  credentials_lookup credentials = (Ok (u, k), evs) ->
  str_truthy (first_non_empty u (os_getenv env SUPABASE_URL)) = false
  \/ str_truthy (first_non_empty k (os_getenv env SUPABASE_SERVICE_ROLE_KEY))
     = false ->
  _get_supabase_client sdk credentials env = (Raise missing_credentials, evs).
Proof.
  intros Hl Hmiss. unfold _get_supabase_client.
  rewrite (bind_Ok _ _ _ _ Hl). cbv zeta. cbn [fst snd].
  rewrite !fallback_first_non_empty.
  destruct Hmiss as [-> | ->]; cbn [negb orb].
  - unfold outcome_of, events_of, raise. cbn [fst snd]. now rewrite app_nil_r.
  - rewrite orb_true_r.
    unfold outcome_of, events_of, raise. cbn [fst snd]. now rewrite app_nil_r.
Qed.

(** C6, as stated, fails: the store knows the key but raises [KeyError] for
    the URL; the key lookup is then never made, and the client is built
    from the environment's key, not the store's. *)
Lemma url_lookup_failure_discards_store_key :
  get store_without_url SUPABASE_SERVICE_ROLE_KEY = Ok (Some "store-key")
  /\ _get_supabase_client healthy_sdk (Some store_without_url) sample_environ
     = (Ok ("https://env.supabase.co", "env-key"),
        [CredentialGet "SUPABASE_URL";
         CreateClient "https://env.supabase.co" "env-key"]).
Proof. split; reflexivity. Qed.

(** C6 (amended): the resolver looks up the URL and then the key inside one
    guarded block.  When both lookups return, each value is used if it is a
    non-empty string and otherwise replaced by its environment variable, so
    a non-empty injected value takes precedence over the environment.  A
    [KeyError] from the key lookup makes the key alone fall back to the
    environment.  A [KeyError] from the URL lookup ends the block: the key
    lookup is not made, and both the URL and the key come from the
    environment. *)
Theorem credential_fallback_chain :
  forall sdk store env U K,
    U <> EmptyString -> K <> EmptyString ->
    (forall u k,
        get store SUPABASE_URL = Ok u ->
        get store SUPABASE_SERVICE_ROLE_KEY = Ok k ->
        first_non_empty u (os_getenv env SUPABASE_URL) = Some U ->
        first_non_empty k (os_getenv env SUPABASE_SERVICE_ROLE_KEY) = Some K ->
        _get_supabase_client sdk (Some store) env
        = (create_client sdk U K,
           [CredentialGet SUPABASE_URL; CredentialGet SUPABASE_SERVICE_ROLE_KEY;
            CreateClient U K]))
    /\ (get store SUPABASE_URL = Ok (Some U) ->
        get store SUPABASE_SERVICE_ROLE_KEY = Ok (Some K) ->
        _get_supabase_client sdk (Some store) env
        = (create_client sdk U K,
           [CredentialGet SUPABASE_URL; CredentialGet SUPABASE_SERVICE_ROLE_KEY;
            CreateClient U K]))
    /\ (forall u e,
        get store SUPABASE_URL = Ok u ->
        get store SUPABASE_SERVICE_ROLE_KEY = Raise e ->
        is_KeyError e = true ->
        first_non_empty u (os_getenv env SUPABASE_URL) = Some U ->
        os_getenv env SUPABASE_SERVICE_ROLE_KEY = Some K ->
        _get_supabase_client sdk (Some store) env
        = (create_client sdk U K,
           [CredentialGet SUPABASE_URL; CredentialGet SUPABASE_SERVICE_ROLE_KEY;
            CreateClient U K]))
    /\ (forall e,
        get store SUPABASE_URL = Raise e ->
        is_KeyError e = true ->
        os_getenv env SUPABASE_URL = Some U ->
        os_getenv env SUPABASE_SERVICE_ROLE_KEY = Some K ->
        _get_supabase_client sdk (Some store) env
        = (create_client sdk U K,
           [CredentialGet SUPABASE_URL; CreateClient U K])).
Proof.
  intros sdk store env U K HU HK.
  assert (Hboth : forall u k,
             get store SUPABASE_URL = Ok u ->
             get store SUPABASE_SERVICE_ROLE_KEY = Ok k ->
             credentials_lookup (Some store)
             = (Ok (u, k), [CredentialGet SUPABASE_URL;
                            CredentialGet SUPABASE_SERVICE_ROLE_KEY])).
  { intros u k Hu Hk. unfold credentials_lookup, call. now rewrite Hu, Hk. }
  split; [| split; [| split]].
  - intros u k Hu Hk HfU HfK.
    now rewrite (client_of_lookup _ _ _ _ _ _ U K (Hboth _ _ Hu Hk)).
  - intros Hu Hk.
    rewrite (client_of_lookup _ _ _ _ _ _ U K (Hboth _ _ Hu Hk)); auto;
      unfold first_non_empty; now rewrite str_truthy_Some.
  - intros u e Hu Hk He HfU HfK.
    rewrite (client_of_lookup sdk (Some store) env u None
               [CredentialGet SUPABASE_URL;
                CredentialGet SUPABASE_SERVICE_ROLE_KEY] U K); auto.
    unfold credentials_lookup, call. now rewrite Hu, Hk, He.
  - intros e Hu He HfU HfK.
    rewrite (client_of_lookup sdk (Some store) env None None
               [CredentialGet SUPABASE_URL] U K); auto.
    unfold credentials_lookup, call. now rewrite Hu, He.
Qed.

Lemma credential_fallback_chain_witness :
  _get_supabase_client healthy_sdk (Some full_store) sample_environ
  = (Ok ("https://store.supabase.co", "store-key"),
     [CredentialGet "SUPABASE_URL"; CredentialGet "SUPABASE_SERVICE_ROLE_KEY";
      CreateClient "https://store.supabase.co" "store-key"])
  /\ _get_supabase_client healthy_sdk (Some store_without_url) sample_environ
     = (Ok ("https://env.supabase.co", "env-key"),
        [CredentialGet "SUPABASE_URL";
         CreateClient "https://env.supabase.co" "env-key"]).
Proof.
  split.
  - destruct (credential_fallback_chain healthy_sdk full_store sample_environ
                "https://store.supabase.co" "store-key")
      as (_ & Hprecedence & _); try discriminate.
    apply Hprecedence; reflexivity.
  - destruct (credential_fallback_chain healthy_sdk store_without_url
                sample_environ "https://env.supabase.co" "env-key")
      as (_ & _ & _ & Hurl); try discriminate.
    apply (Hurl (MkExn KeyError "'SUPABASE_URL'")); reflexivity.
Defined.

(** ** C7 and C9: the user listing *)

Lemma users_attribute res users :
  dict_get "users" (py_attrs res) = Some users ->
  py_hasattr res "users" = true /\ py_getattr res "users" = ret users.
Proof. unfold py_hasattr, dict_has, py_getattr. now intros ->. Qed.

(** C7, as stated, fails: a user object without [id] is not projected with a
    null [id]; reading [id] raises, and the whole call returns the error
    dictionary. *)
Lemma user_without_id_fails_listing :
  py_hasattr user_without_id "id" = false
  /\ supabase_auth_list_users (users_sdk [sample_user; user_without_id])
       None sample_environ
     = (Ok [("error",
             VStr "Failed to list auth users: 'User' object has no attribute 'id'")],
        [CreateClient "https://env.supabase.co" "env-key"; ListUsers;
         LogException "Supabase Auth List Users failed"
           (MkExn AttributeError "'User' object has no attribute 'id'")]).
Proof. split; reflexivity. Qed.

(** C7 (amended): when every user record that the identity subsystem
    returns carries an [id], the listing projects each record, in the order
    returned, to exactly the fields [id], [email], [created_at] and
    [last_sign_in_at]; [email], [created_at] and [last_sign_in_at] hold the
    record's value, or [None] (not an error result) when the record lacks
    the attribute, and [id] holds the record's [id]; [count] is the number
    of records. *)
Theorem user_records_projected :
  forall sdk credentials env c evs res us,
    _get_supabase_client sdk credentials env = (Ok c, evs) ->
    sdk_list_users sdk c = Ok res ->
    dict_get "users" (py_attrs res) = Some (VList us) ->
    (forall u, In u us -> py_hasattr u "id" = true) ->
    supabase_auth_list_users sdk credentials env
    = (Ok [("success", VBool true);
           ("data", VList (map spec_user_record us));
           ("count", VInt (Z.of_nat (List.length us)))],
       evs ++ [ListUsers])
    /\ (forall u, In u us ->
        exists d,
          spec_user_record u = VDict d
          /\ dict_keys d = ["id"; "email"; "created_at"; "last_sign_in_at"]
          /\ dict_get "id" d = dict_get "id" (py_attrs u)
          /\ (forall field,
              In field ["email"; "created_at"; "last_sign_in_at"] ->
              dict_get field d
              = Some (match dict_get field (py_attrs u) with
                      | Some v => v
                      | None => VNone
                      end))).
Proof.
  intros sdk credentials env c evs res us Hc Hl Hus Hid. split.
  - apply auth_list_users_returned. unfold supabase_auth_list_users_try.
    destruct (users_attribute _ _ Hus) as [Hhas Hget].
    rewrite (bind_Ok _ _ _ _ Hc), (bind_call_Ok _ _ _ _ Hl), Hhas, Hget.
    rewrite bind_ret. cbn [py_iter]. rewrite bind_ret.
    rewrite (users_loop_all_ids us [] Hid).
    unfold bind, ret, outcome_of, events_of. cbn [fst snd app].
    rewrite length_map. reflexivity.
  - intros u Hu. specialize (Hid u Hu).
    unfold py_hasattr, dict_has in Hid.
    eexists. split; [reflexivity |]. split; [reflexivity |]. split.
    + unfold py_getattr_default. cbn.
      now destruct (dict_get "id" (py_attrs u)).
    + intros field [<- | [<- | [<- | []]]]; reflexivity.
Qed.

Lemma user_records_projected_witness :
  supabase_auth_list_users healthy_sdk None sample_environ
  = (Ok [("success", VBool true);
         ("data",
          VList [VDict [("id", VStr "user-123");
                        ("email", VStr "test@example.com");
                        ("created_at", VNone);
                        ("last_sign_in_at", VNone)]]);
         ("count", VInt 1)],
     [CreateClient "https://env.supabase.co" "env-key"; ListUsers]).
Proof.
  refine (proj1 (user_records_projected healthy_sdk None sample_environ
                   ("https://env.supabase.co", "env-key")
                   [CreateClient "https://env.supabase.co" "env-key"]
                   (VObj "UserResponse" [("users", VList [sample_user])])
                   [sample_user] eq_refl eq_refl eq_refl _)).
  intros u [<- | []]. reflexivity.
Defined.

(** C9: when the list-users response object has no [users] attribute, the
    listing returns the success-shaped empty result. *)
Theorem response_without_users_is_empty_success :
  forall sdk credentials env c evs res,
    _get_supabase_client sdk credentials env = (Ok c, evs) ->
    sdk_list_users sdk c = Ok res ->
    py_hasattr res "users" = false ->
    supabase_auth_list_users sdk credentials env
    = (Ok [("success", VBool true); ("data", VList []); ("count", VInt 0)],
       evs ++ [ListUsers]).
Proof.
  intros sdk credentials env c evs res Hc Hl Hno.
  apply auth_list_users_returned. unfold supabase_auth_list_users_try.
  rewrite (bind_Ok _ _ _ _ Hc), (bind_call_Ok _ _ _ _ Hl), Hno, bind_ret.
  reflexivity.
Qed.

Lemma response_without_users_is_empty_success_witness :
  supabase_auth_list_users bare_response_sdk None sample_environ
  = (Ok [("success", VBool true); ("data", VList []); ("count", VInt 0)],
     [CreateClient "https://env.supabase.co" "env-key"; ListUsers]).
Proof.
  exact (response_without_users_is_empty_success
           bare_response_sdk None sample_environ
           ("https://env.supabase.co", "env-key")
           [CreateClient "https://env.supabase.co" "env-key"]
           (VObj "UserResponse" []) eq_refl eq_refl eq_refl).
Defined.

(** ** C10: empty and missing arguments *)

Lemma py_getattr_emits P v name : emits P (py_getattr v name).
Proof. unfold py_getattr. now destruct (dict_get name (py_attrs v)). Qed.

Lemma py_len_emits P v : emits P (py_len v).
Proof. now destruct v. Qed.

Lemma setup_is_not_eq ev : setup_event ev = true -> not_eq_event ev = true.
Proof. now destruct ev. Qed.

Lemma select_unfiltered_emits sdk credentials env table qf p :
  filter_truthy qf = false ->
  emits not_eq_event
    (supabase_db_query sdk credentials env table "select" qf p).
Proof.
  intros Hq. unfold supabase_db_query. apply emits_try_except.
  - unfold supabase_db_query_try. literal_actions. rewrite Hq.
    apply emits_bind.
    + apply (emits_weaken setup_event); [apply setup_is_not_eq |].
      apply get_supabase_client_emits.
    + intros c.
      repeat first [ emits_step | apply py_getattr_emits | apply py_len_emits ].
  - intros e. apply (emits_weaken setup_event); [apply setup_is_not_eq |].
    apply handler_emits.
Qed.

(** C10: a select with no filter and a select with an empty filter are the
    same computation, result and events alike, and neither applies an
    equality condition; for insert and for update, an empty mapping and an
    empty sequence as payload behave exactly as a missing payload. *)
Theorem empty_arguments_equal_missing :
  forall sdk credentials env table,
    (forall p,
        supabase_db_query sdk credentials env table "select" None p
        = supabase_db_query sdk credentials env table "select" (Some []) p)
    /\ (forall p,
        emits not_eq_event
          (supabase_db_query sdk credentials env table "select" None p)
        /\ emits not_eq_event
             (supabase_db_query sdk credentials env table "select" (Some []) p))
    /\ (forall qf,
        supabase_db_query sdk credentials env table "insert" qf (PRecord [])
        = supabase_db_query sdk credentials env table "insert" qf PNone
        /\ supabase_db_query sdk credentials env table "insert" qf (PRecords [])
           = supabase_db_query sdk credentials env table "insert" qf PNone)
    /\ (forall qf,
        supabase_db_query sdk credentials env table "update" qf (PRecord [])
        = supabase_db_query sdk credentials env table "update" qf PNone
        /\ supabase_db_query sdk credentials env table "update" qf (PRecords [])
           = supabase_db_query sdk credentials env table "update" qf PNone).
Proof.
  intros sdk credentials env table.
  split; [| split; [| split]].
  - intros p. reflexivity.
  - intros p. split; now apply select_unfiltered_emits.
  - intros qf. split; reflexivity.
  - intros qf. split; reflexivity.
Qed.

(** * Further properties of the module *)

(** ** Reasoning about outcomes and events together *)

Lemma post_ret {A} (R : outcome A -> list event -> Prop) a :
  R (Ok a) [] -> post R (ret a).
Proof. exact (fun H => H). Qed.

Lemma post_raise {A} (R : outcome A -> list event -> Prop) e :
  R (Raise e) [] -> post R (raise e).
Proof. exact (fun H => H). Qed.

Lemma post_call {A} (R : outcome A -> list event -> Prop) ev o :
  R o [ev] -> post R (call ev o).
Proof. exact (fun H => H). Qed.

Lemma post_bind {A B} (R : outcome B -> list event -> Prop)
  (m : M A) (f : A -> M B) :
  post (fun o evs =>
          match o with
          | Ok a => post (fun o' evs' => R o' (evs ++ evs')) (f a)
          | Raise e => R (Raise e) evs
          end) m ->
  post R (bind m f).
Proof.
  unfold post, bind, outcome_of, events_of.
  destruct m as [[a | e] evs]; cbn [fst snd]; [| auto].
  now destruct (f a).
Qed.

Lemma post_conseq {A} (R0 R : outcome A -> list event -> Prop) (m : M A) :
  post R0 m -> (forall o evs, R0 o evs -> R o evs) -> post R m.
Proof. unfold post. auto. Qed.

Lemma count_events_app P evs evs' :
  count_events P (evs ++ evs') = count_events P evs + count_events P evs'.
Proof. unfold count_events. now rewrite filter_app, length_app. Qed.

Lemma count_events_none (P Q : event -> bool) evs :
  forallb Q evs = true ->
  (forall ev, Q ev = true -> P ev = false) ->
  count_events P evs = 0.
Proof.
  intros HQ HPQ. unfold count_events.
  induction evs as [| ev evs IH]; [reflexivity |].
  cbn [forallb] in HQ. apply andb_true_iff in HQ as [Hev Hrest].
  cbn [filter]. rewrite (HPQ ev Hev). now apply IH.
Qed.

Lemma eq_events_forallb entries : forallb eq_event (eq_events entries) = true.
Proof. induction entries as [| [k v] rest IH]; [reflexivity | exact IH]. Qed.

(** ** The resolver, completely *)

Lemma first_non_empty_cases injected fallback :
  str_truthy (first_non_empty injected fallback) = false
  \/ exists s,
      first_non_empty injected fallback = Some s /\ s <> EmptyString
      /\ (injected = Some s \/ fallback = Some s).
Proof.
  unfold first_non_empty.
  destruct injected as [[| c s] |]; cbn [str_truthy];
    try (right; eexists; split; [reflexivity |]; split;
         [discriminate | now left]);
    (destruct fallback as [[| c s] |]; cbn [str_truthy]; [now left | | now left];
     right; eexists; split; [reflexivity |]; split;
     [discriminate | now right]).
Qed.

(** What the two guarded lookups leave behind. *)
Lemma credentials_lookup_post credentials :
  post (fun o evs =>
          forallb lookup_event evs = true
          /\ match o with
             | Ok (u, k) =>
                 (u = None \/ exists store,
                     credentials = Some store /\ get store SUPABASE_URL = Ok u)
                 /\ (k = None \/ exists store,
                        credentials = Some store
                        /\ get store SUPABASE_SERVICE_ROLE_KEY = Ok k)
             | Raise _ => True
             end)
       (credentials_lookup credentials).
Proof.
  unfold post, credentials_lookup, call, outcome_of, events_of.
  destruct credentials as [store |]; [| cbn; auto].
  destruct (get store SUPABASE_URL) as [u | e] eqn:Hu.
  - destruct (get store SUPABASE_SERVICE_ROLE_KEY) as [k | e] eqn:Hk.
    + cbn. repeat split; right; exists store; auto.
    + destruct (is_KeyError e); cbn; repeat split; auto.
      right; exists store; auto.
  - destruct (is_KeyError e); cbn; auto.
Qed.

Lemma get_supabase_client_resolved sdk credentials env :
  post (resolved sdk credentials env)
       (_get_supabase_client sdk credentials env).
Proof.
  pose proof (credentials_lookup_post credentials) as Hl.
  unfold post in *.
  destruct (credentials_lookup credentials) as [[[u k] | e] lookups] eqn:Hlookup;
    cbn [outcome_of events_of fst snd] in Hl; destruct Hl as [Hlk Hsrc].
  - destruct Hsrc as [Hsu Hsk].
    destruct (first_non_empty_cases u (os_getenv env SUPABASE_URL))
      as [Hmu | (U & HU & HUne & HUsrc)].
    { rewrite (client_of_lookup_missing sdk _ env _ _ _ Hlookup) by now left.
      exists lookups. split; [exact Hlk |]. left. split; [reflexivity |].
      now eexists. }
    destruct (first_non_empty_cases k (os_getenv env SUPABASE_SERVICE_ROLE_KEY))
      as [Hmk | (K & HK & HKne & HKsrc)].
    { rewrite (client_of_lookup_missing sdk _ env _ _ _ Hlookup) by now right.
      exists lookups. split; [exact Hlk |]. left. split; [reflexivity |].
      now eexists. }
    rewrite (client_of_lookup sdk _ env _ _ _ U K Hlookup HU HK HUne HKne).
    exists lookups. split; [exact Hlk |]. right. exists U, K.
    cbn [outcome_of events_of fst snd].
    repeat split; auto.
    + destruct HUsrc as [-> | Henv]; [| now right].
      left. destruct Hsu as [Hnone | (store & -> & Hget)]; [discriminate |].
      now exists store.
    + destruct HKsrc as [-> | Henv]; [| now right].
      left. destruct Hsk as [Hnone | (store & -> & Hget)]; [discriminate |].
      now exists store.
  - unfold _get_supabase_client. rewrite (bind_Raise _ _ _ _ Hlookup).
    exists lookups. split; [exact Hlk |]. left. split; [reflexivity |].
    now eexists.
Qed.

(** ** Symbolic execution of the [try] suites *)

Lemma apply_filters_post sdk r entries :
  post (fun o evs =>
          forallb eq_event evs = true
          /\ match o with
             | Ok _ => evs = eq_events entries
             | Raise e =>
                 exists pre k v rest r',
                   entries = pre ++ (k, v) :: rest
                   /\ filtered sdk r pre r'
                   /\ sdk_eq sdk r' k v = Raise e
                   /\ evs = eq_events pre ++ [EqCond k v]
             end)
       (apply_filters sdk r entries).
Proof.
  revert r. induction entries as [| [k v] rest IH]; intros r.
  - cbn [apply_filters]. apply post_ret. now split.
  - cbn [apply_filters]. apply post_bind, post_call.
    destruct (sdk_eq sdk r k v) as [r1 | e] eqn:Heq.
    + eapply post_conseq; [apply IH |].
      intros [r2 | e] evs [Hall Hevs]; cbn [app forallb eq_event andb].
      * split; [exact Hall |]. now rewrite Hevs.
      * split; [exact Hall |].
        destruct Hevs as (pre & k' & v' & rest' & r' & -> & Hf & He & ->).
        exists ((k, v) :: pre), k', v', rest', r'.
        repeat split; auto. econstructor; eauto.
    + split; [reflexivity |].
      exists [], k, v, rest, r. repeat split; auto. constructor.
Qed.

Lemma lookups_counted lookups :
  forallb lookup_event lookups = true ->
  count_events create_event lookups = 0
  /\ count_events remote_event lookups = 0
  /\ count_events log_event lookups = 0
  /\ count_events eq_event lookups = 0.
Proof.
  intros H. repeat split; apply (count_events_none _ lookup_event); auto;
    intros [] Hev; try discriminate; reflexivity.
Qed.

Lemma eq_events_counted evs :
  forallb eq_event evs = true ->
  count_events create_event evs = 0
  /\ count_events remote_event evs = 0
  /\ count_events log_event evs = 0.
Proof.
  intros H. repeat split; apply (count_events_none _ eq_event); auto;
    intros [] Hev; try discriminate; reflexivity.
Qed.

Lemma post_try_except {A} (R : outcome A -> list event -> Prop)
  (body : M A) (h : exn -> M A) :
  post (fun o evs =>
          match o with
          | Ok a => R (Ok a) evs
          | Raise e => post (fun o' evs' => R o' (evs ++ evs')) (h e)
          end) body ->
  post R (try_except body h).
Proof.
  unfold post, try_except, outcome_of, events_of.
  destruct body as [[a | e] evs]; cbn [fst snd]; [auto |].
  now destruct (h e).
Qed.

Lemma post_emit (R : outcome unit -> list event -> Prop) ev :
  R (Ok tt) [ev] -> post R (emit ev).
Proof. exact (fun H => H). Qed.

Ltac post_step :=
  cbv beta iota;
  lazymatch goal with
  | |- post _ (bind _ _) => apply post_bind
  | |- post _ (try_except _ _) => apply post_try_except
  | |- post _ (emit _) => apply post_emit
  | |- post _ (call _ ?o) => apply post_call; destruct o eqn:?
  | |- post _ (ret _) => apply post_ret
  | |- post _ (raise _) => apply post_raise
  | |- post _ (if ?c then _ else _) => destruct c eqn:?
  | |- post _ (py_getattr ?v ?n) =>
      unfold py_getattr; destruct (dict_get n (py_attrs v)) eqn:?
  | |- post _ (py_len ?v) => destruct v; cbn [py_len]
  | |- post _ (py_iter ?v) => destruct v; cbn [py_iter]
  | |- post _ (apply_filters _ _ _) =>
      eapply post_conseq; [apply apply_filters_post |];
      let o := fresh "o" in
      let evs := fresh "evs" in
      let Hall := fresh "Hall" in
      let Hevs := fresh "Hevs" in
      intros o evs [Hall Hevs];
      destruct (eq_events_counted _ Hall) as (? & ? & ?);
      destruct o
  | |- post _ (_get_supabase_client _ _ _) =>
      eapply post_conseq; [apply get_supabase_client_resolved |];
      let o := fresh "o" in
      let evs := fresh "evs" in
      let lookups := fresh "lookups" in
      let Hlk := fresh "Hlk" in
      let Hres := fresh "Hres" in
      intros o evs (lookups & Hlk & Hres);
      destruct (lookups_counted _ Hlk) as (? & ? & ? & ?);
      destruct Hres as [[-> [? ->]] | (? & ? & -> & ? & ? & ? & ? & ->)];
      [| match goal with
         | |- context [create_client ?s ?u ?k] =>
             destruct (create_client s u k) eqn:?
         end]
  end.

Ltac count_leaf :=
  rewrite ?count_events_app;
  repeat match goal with
         | H : count_events _ _ = 0 |- _ => rewrite H
         end;
  unfold count_events; cbn.

Ltac account_leaf :=
  unfold suite_post, accounted; count_leaf;
  repeat split; try lia;
  try (intros; discriminate);
  try (intros ? H; cbn in H; discriminate H).

Lemma db_query_try_post sdk credentials env table action qf p :
  post (suite_post "Failed to execute DB query: ")
       (supabase_db_query_try sdk credentials env table action qf p).
Proof.
  unfold supabase_db_query_try, error_dict.
  repeat post_step; account_leaf.
Qed.

Lemma users_loop_silent us : forall acc, events_of (users_loop us acc) = [].
Proof.
  induction us as [| u rest IH]; intros acc; cbn [users_loop]; [reflexivity |].
  unfold project_user, py_getattr.
  destruct (dict_get "id" (py_attrs u)); [| reflexivity].
  rewrite !bind_ret. apply IH.
Qed.

Lemma users_loop_post (R : outcome (list pyval) -> list event -> Prop) us acc :
  (forall o, R o []) -> post R (users_loop us acc).
Proof. intros H. unfold post. rewrite users_loop_silent. apply H. Qed.

Lemma auth_list_users_try_post sdk credentials env :
  post (suite_post "Failed to list auth users: ")
       (supabase_auth_list_users_try sdk credentials env).
Proof.
  unfold supabase_auth_list_users_try.
  repeat post_step;
    try (apply users_loop_post; intros [users_list | e]; cbv beta iota;
         [apply post_ret |]);
    account_leaf.
Qed.

Lemma storage_list_buckets_try_post sdk credentials env :
  post (suite_post "Failed to list storage buckets: ")
       (supabase_storage_list_buckets_try sdk credentials env).
Proof.
  unfold supabase_storage_list_buckets_try. cbv zeta.
  repeat post_step; account_leaf.
Qed.

Lemma shapes_exclusive d : success_shaped d = true -> error_shaped d = false.
Proof.
  unfold success_shaped, error_shaped, dict_has.
  destruct (dict_get "success" d) as [[| [|] | | | | |] |]; try discriminate.
  intros _. now rewrite andb_false_r.
Qed.

(** From a [try] suite to the guarded tool. *)
Lemma guarded_post (body : M pydict) msg prefix :
  post (suite_post prefix) body ->
  post (fun o evs =>
          accounted evs
          /\ count_events log_event evs <= 1
          /\ exists d,
              o = Ok d
              /\ (count_events log_event evs = 1
                  <-> exists s, d = [("error", VStr (prefix ++ s))])
              /\ (success_shaped d = true ->
                  count_events remote_event evs = 1
                  /\ count_events create_event evs = 1
                  /\ count_events log_event evs = 0)
              /\ (error_shaped d = true ->
                  count_events log_event evs = 0 ->
                  count_events remote_event evs = 0))
       (try_except body
          (fun e => emit (LogException msg e) ;;;
                    ret (error_dict (prefix ++ exn_str e)))).
Proof.
  unfold post, suite_post, accounted.
  destruct body as [[d | e] evs];
    cbn [try_except outcome_of events_of fst snd bind emit ret app error_dict].
  - intros (Hlog & (Hc & Hr & Hrc) & Hne & Hsucc & Herr).
    split; [auto |]. split; [lia |].
    exists d. split; [reflexivity |].
    split; [| split].
    + split; [lia |]. intros [s Hs]. exfalso. exact (Hne s Hs).
    + intros Hs. specialize (Hsucc Hs). auto.
    + auto.
  - intros (Hlog & (Hc & Hr & Hrc) & _).
    rewrite !count_events_app, Hlog.
    change (count_events log_event [LogException msg e]) with 1.
    change (count_events create_event [LogException msg e]) with 0.
    change (count_events remote_event [LogException msg e]) with 0.
    rewrite !Nat.add_0_r.
    split; [auto |]. split; [lia |].
    eexists. split; [reflexivity |].
    split; [| split].
    + split; [| reflexivity]. intros _. now exists (exn_str e).
    + intros Hs. discriminate Hs.
    + intros _ Hs. discriminate Hs.
Qed.

Lemma db_query_post sdk credentials env table action qf p :
  post (fun o evs =>
          accounted evs
          /\ count_events log_event evs <= 1
          /\ exists d,
              o = Ok d
              /\ (count_events log_event evs = 1
                  <-> exists s,
                      d = [("error", VStr ("Failed to execute DB query: " ++ s))])
              /\ (success_shaped d = true ->
                  count_events remote_event evs = 1
                  /\ count_events create_event evs = 1
                  /\ count_events log_event evs = 0)
              /\ (error_shaped d = true ->
                  count_events log_event evs = 0 ->
                  count_events remote_event evs = 0))
       (supabase_db_query sdk credentials env table action qf p).
Proof. apply guarded_post, db_query_try_post. Qed.

Lemma auth_list_users_post sdk credentials env :
  post (fun o evs =>
          accounted evs
          /\ count_events log_event evs <= 1
          /\ exists d,
              o = Ok d
              /\ (count_events log_event evs = 1
                  <-> exists s,
                      d = [("error", VStr ("Failed to list auth users: " ++ s))])
              /\ (success_shaped d = true ->
                  count_events remote_event evs = 1
                  /\ count_events create_event evs = 1
                  /\ count_events log_event evs = 0)
              /\ (error_shaped d = true ->
                  count_events log_event evs = 0 ->
                  count_events remote_event evs = 0))
       (supabase_auth_list_users sdk credentials env).
Proof. apply guarded_post, auth_list_users_try_post. Qed.

Lemma storage_list_buckets_post sdk credentials env :
  post (fun o evs =>
          accounted evs
          /\ count_events log_event evs <= 1
          /\ exists d,
              o = Ok d
              /\ (count_events log_event evs = 1
                  <-> exists s,
                      d = [("error",
                            VStr ("Failed to list storage buckets: " ++ s))])
              /\ (success_shaped d = true ->
                  count_events remote_event evs = 1
                  /\ count_events create_event evs = 1
                  /\ count_events log_event evs = 0)
              /\ (error_shaped d = true ->
                  count_events log_event evs = 0 ->
                  count_events remote_event evs = 0))
       (supabase_storage_list_buckets sdk credentials env).
Proof. apply guarded_post, storage_list_buckets_try_post. Qed.

(** ** One client, one remote call, one log record *)

(** X2: whenever a tool returns a success-shaped result, exactly one client
    was created, exactly one remote call was made, and nothing was
    logged. *)
Theorem success_means_one_remote_call :
  forall sdk credentials env d,
    success_shaped d = true ->
    (forall table action qf p,
        outcome_of (supabase_db_query sdk credentials env table action qf p)
        = Ok d ->
        let evs :=
          events_of (supabase_db_query sdk credentials env table action qf p) in
        count_events remote_event evs = 1
        /\ count_events create_event evs = 1
        /\ count_events log_event evs = 0)
    /\ (outcome_of (supabase_auth_list_users sdk credentials env) = Ok d ->
        let evs := events_of (supabase_auth_list_users sdk credentials env) in
        count_events remote_event evs = 1
        /\ count_events create_event evs = 1
        /\ count_events log_event evs = 0)
    /\ (outcome_of (supabase_storage_list_buckets sdk credentials env) = Ok d ->
        let evs :=
          events_of (supabase_storage_list_buckets sdk credentials env) in
        count_events remote_event evs = 1
        /\ count_events create_event evs = 1
        /\ count_events log_event evs = 0).
Proof.
  intros sdk credentials env d Hs. split; [| split].
  - intros table action qf p Hd.
    destruct (db_query_post sdk credentials env table action qf p)
      as (_ & _ & d' & Hd' & _ & Hsucc & _).
    pose proof (eq_trans (eq_sym Hd') Hd) as Heq. injection Heq as ->.
    now apply Hsucc.
  - intros Hd.
    destruct (auth_list_users_post sdk credentials env)
      as (_ & _ & d' & Hd' & _ & Hsucc & _).
    pose proof (eq_trans (eq_sym Hd') Hd) as Heq. injection Heq as ->.
    now apply Hsucc.
  - intros Hd.
    destruct (storage_list_buckets_post sdk credentials env)
      as (_ & _ & d' & Hd' & _ & Hsucc & _).
    pose proof (eq_trans (eq_sym Hd') Hd) as Heq. injection Heq as ->.
    now apply Hsucc.
Qed.

Lemma success_means_one_remote_call_witness :
  count_events remote_event
    (events_of (supabase_db_query healthy_sdk (Some full_store) empty_environ
                  "users" "select" None PNone)) = 1
  /\ count_events create_event
       (events_of (supabase_db_query healthy_sdk (Some full_store) empty_environ
                     "users" "select" None PNone)) = 1
  /\ count_events log_event
       (events_of (supabase_db_query healthy_sdk (Some full_store) empty_environ
                     "users" "select" None PNone)) = 0.
Proof.
  refine (proj1 (success_means_one_remote_call
                   healthy_sdk (Some full_store) empty_environ
                   [("success", VBool true); ("data", VList [sample_row]);
                    ("count", VInt 1)] eq_refl)
                "users" "select" None PNone eq_refl).
Defined.

(** ** Logged errors and validation errors *)

Lemma auth_list_users_try_succeeds sdk credentials env :
  returns (fun d => success_shaped d = true)
    (supabase_auth_list_users_try sdk credentials env).
Proof.
  unfold supabase_auth_list_users_try. repeat returns_step; reflexivity.
Qed.

Lemma storage_list_buckets_try_succeeds sdk credentials env :
  returns (fun d => success_shaped d = true)
    (supabase_storage_list_buckets_try sdk credentials env).
Proof.
  unfold supabase_storage_list_buckets_try. cbv zeta.
  repeat returns_step; reflexivity.
Qed.

(** A guarded listing is an error exactly when its handler ran. *)
Lemma listing_error_iff_logged (body : M pydict) msg prefix :
  post (suite_post prefix) body ->
  returns (fun d => success_shaped d = true) body ->
  post (fun o evs =>
          exists d, o = Ok d
                    /\ (error_shaped d = true
                        <-> count_events log_event evs = 1))
       (try_except body
          (fun e => emit (LogException msg e) ;;;
                    ret (error_dict (prefix ++ exn_str e)))).
Proof.
  unfold post, suite_post, returns.
  destruct body as [[d | e] evs];
    cbn [try_except outcome_of events_of fst snd bind emit ret app error_dict].
  - intros (Hlog & _) Hs. exists d. split; [reflexivity |].
    rewrite (shapes_exclusive _ Hs), Hlog. split; discriminate.
  - intros (Hlog & _) _. eexists. split; [reflexivity |].
    rewrite count_events_app, Hlog. split; reflexivity.
Qed.

(** X3: [supabase_db_query] writes a log record exactly when the message it
    returns starts with ["Failed to execute DB query: "]; the validation
    errors (missing payload, missing filter, unknown action) are never
    logged, and an error that was not logged means no request was sent.
    The two listings have no validation errors: their result is error
    shaped exactly when a log record was written. *)
Theorem logged_exactly_when_caught :
  forall sdk credentials env,
    (forall table action qf p,
        exists d,
          outcome_of (supabase_db_query sdk credentials env table action qf p)
          = Ok d
          /\ (count_events log_event
                (events_of (supabase_db_query sdk credentials env
                              table action qf p)) = 1
              <-> exists s,
                  d = [("error", VStr ("Failed to execute DB query: " ++ s))])
          /\ (error_shaped d = true ->
              count_events log_event
                (events_of (supabase_db_query sdk credentials env
                              table action qf p)) = 0 ->
              count_events remote_event
                (events_of (supabase_db_query sdk credentials env
                              table action qf p)) = 0))
    /\ (exists d,
          outcome_of (supabase_auth_list_users sdk credentials env) = Ok d
          /\ (error_shaped d = true
              <-> count_events log_event
                    (events_of (supabase_auth_list_users sdk credentials env))
                  = 1))
    /\ (exists d,
          outcome_of (supabase_storage_list_buckets sdk credentials env) = Ok d
          /\ (error_shaped d = true
              <-> count_events log_event
                    (events_of (supabase_storage_list_buckets
                                  sdk credentials env)) = 1)).
Proof.
  intros sdk credentials env. split; [| split].
  - intros table action qf p.
    destruct (db_query_post sdk credentials env table action qf p)
      as (_ & _ & d & Hd & Hiff & _ & Herr).
    exists d. auto.
  - apply (listing_error_iff_logged
             (supabase_auth_list_users_try sdk credentials env)).
    + apply auth_list_users_try_post.
    + apply auth_list_users_try_succeeds.
  - apply (listing_error_iff_logged
             (supabase_storage_list_buckets_try sdk credentials env)).
    + apply storage_list_buckets_try_post.
    + apply storage_list_buckets_try_succeeds.
Qed.

(** ** Where the client's URL and key come from *)

(** X4: the resolver builds a client only from a non-empty URL and a
    non-empty key, each of which is either the credential store's answer to
    the lookup of that name or the value of the environment variable of
    that name; what the resolver yields is then what [create_client]
    yielded for these two values. *)
Theorem client_built_from_provided_values :
  forall sdk credentials env u k,
    In (CreateClient u k)
       (events_of (_get_supabase_client sdk credentials env)) ->
    u <> EmptyString /\ k <> EmptyString
    /\ provided_by credentials env SUPABASE_URL u
    /\ provided_by credentials env SUPABASE_SERVICE_ROLE_KEY k
    /\ outcome_of (_get_supabase_client sdk credentials env)
       = create_client sdk u k.
Proof.
  intros sdk credentials env u k Hin.
  destruct (get_supabase_client_resolved sdk credentials env)
    as (lookups & Hlk & Hres).
  assert (Hno : ~ In (CreateClient u k) lookups).
  { intros H. rewrite forallb_forall in Hlk. specialize (Hlk _ H).
    discriminate Hlk. }
  destruct Hres as [[Hevs _] | (u' & k' & Hevs & Hu & Hk & Hpu & Hpk & Ho)];
    rewrite Hevs in Hin.
  - contradiction.
  - apply in_app_or in Hin as [Hin | [Heq | []]]; [contradiction |].
    injection Heq as <- <-. auto.
Qed.

Lemma client_built_from_provided_values_witness :
  In (CreateClient "https://env.supabase.co" "env-key")
     (events_of (_get_supabase_client healthy_sdk (Some store_without_url)
                   sample_environ))
  /\ provided_by (Some store_without_url) sample_environ
       SUPABASE_SERVICE_ROLE_KEY "env-key".
Proof.
  assert (Hin : In (CreateClient "https://env.supabase.co" "env-key")
                   (events_of (_get_supabase_client healthy_sdk
                                 (Some store_without_url) sample_environ))).
  { right. left. reflexivity. }
  split; [exact Hin |].
  exact (proj1 (proj2 (proj2 (proj2
           (client_built_from_provided_values
              healthy_sdk (Some store_without_url) sample_environ
              "https://env.supabase.co" "env-key" Hin))))).
Defined.

Lemma logged_exactly_when_caught_witness :
  count_events log_event
    (events_of (supabase_db_query failing_sdk None sample_environ
                  "users" "select" None PNone)) = 1
  /\ count_events log_event
       (events_of (supabase_db_query healthy_sdk None sample_environ
                     "users" "upsert" None PNone)) = 0.
Proof.
  split.
  - destruct (proj1 (logged_exactly_when_caught failing_sdk None sample_environ)
                "users" "select" None PNone) as (d & Hd & Hiff & _).
    apply Hiff. injection Hd as <-. now exists "connection refused".
  - reflexivity.
Defined.

(** ** A credential store that fails *)

Lemma resolver_failure_converted sdk credentials env e evs :
  _get_supabase_client sdk credentials env = (Raise e, evs) ->
  (forall table action qf p,
      supabase_db_query sdk credentials env table action qf p
      = (Ok [("error", VStr ("Failed to execute DB query: " ++ exn_str e))],
         evs ++ [LogException "Supabase DB Query failed" e]))
  /\ supabase_auth_list_users sdk credentials env
     = (Ok [("error", VStr ("Failed to list auth users: " ++ exn_str e))],
        evs ++ [LogException "Supabase Auth List Users failed" e])
  /\ supabase_storage_list_buckets sdk credentials env
     = (Ok [("error", VStr ("Failed to list storage buckets: " ++ exn_str e))],
        evs ++ [LogException "Supabase Storage List Buckets failed" e]).
Proof.
  intros H.
  destruct (resolver_failure_in_suites _ _ _ _ _ H) as (Hq & Hu & Hb).
  repeat split; intros.
  - now rewrite (db_query_caught _ _ _ _ _ _ _ _ _ (Hq table action qf p)).
  - now rewrite (auth_list_users_caught _ _ _ _ _ Hu).
  - now rewrite (storage_list_buckets_caught _ _ _ _ _ Hb).
Qed.

(** X5: only [KeyError] counts as "not found".  When a lookup in the
    credential store raises any other exception, the resolver raises it
    too, without consulting the environment and without creating a client
    (after a failed URL lookup the key is not even looked up), and every
    tool returns its error dictionary with that exception's message --
    whatever the environment holds. *)
Theorem store_failure_is_not_absence :
  forall sdk store env e,
    is_KeyError e = false ->
    (get store SUPABASE_URL = Raise e ->
     _get_supabase_client sdk (Some store) env
     = (Raise e, [CredentialGet SUPABASE_URL])
     /\ (forall table action qf p,
            supabase_db_query sdk (Some store) env table action qf p
            = (Ok [("error",
                    VStr ("Failed to execute DB query: " ++ exn_str e))],
               [CredentialGet SUPABASE_URL;
                LogException "Supabase DB Query failed" e]))
     /\ supabase_auth_list_users sdk (Some store) env
        = (Ok [("error", VStr ("Failed to list auth users: " ++ exn_str e))],
           [CredentialGet SUPABASE_URL;
            LogException "Supabase Auth List Users failed" e])
     /\ supabase_storage_list_buckets sdk (Some store) env
        = (Ok [("error",
                VStr ("Failed to list storage buckets: " ++ exn_str e))],
           [CredentialGet SUPABASE_URL;
            LogException "Supabase Storage List Buckets failed" e]))
    /\ (forall u,
        get store SUPABASE_URL = Ok u ->
        get store SUPABASE_SERVICE_ROLE_KEY = Raise e ->
        _get_supabase_client sdk (Some store) env
        = (Raise e, [CredentialGet SUPABASE_URL;
                     CredentialGet SUPABASE_SERVICE_ROLE_KEY])
        /\ (forall table action qf p,
               supabase_db_query sdk (Some store) env table action qf p
               = (Ok [("error",
                       VStr ("Failed to execute DB query: " ++ exn_str e))],
                  [CredentialGet SUPABASE_URL;
                   CredentialGet SUPABASE_SERVICE_ROLE_KEY;
                   LogException "Supabase DB Query failed" e]))).
Proof.
  intros sdk store env e He. split.
  - intros Hu.
    assert (Hr : _get_supabase_client sdk (Some store) env
                 = (Raise e, [CredentialGet SUPABASE_URL])).
    { unfold _get_supabase_client, credentials_lookup, call.
      now rewrite Hu, He. }
    split; [exact Hr |].
    exact (resolver_failure_converted _ _ _ _ _ Hr).
  - intros u Hu Hk.
    assert (Hr : _get_supabase_client sdk (Some store) env
                 = (Raise e, [CredentialGet SUPABASE_URL;
                              CredentialGet SUPABASE_SERVICE_ROLE_KEY])).
    { unfold _get_supabase_client, credentials_lookup, call.
      now rewrite Hu, Hk, He. }
    split; [exact Hr |].
    exact (proj1 (resolver_failure_converted _ _ _ _ _ Hr)).
Qed.

Lemma store_failure_is_not_absence_witness :
  os_getenv sample_environ SUPABASE_URL = Some "https://env.supabase.co"
  /\ supabase_auth_list_users healthy_sdk (Some broken_store) sample_environ
     = (Ok [("error", VStr "Failed to list auth users: vault sealed")],
        [CredentialGet "SUPABASE_URL";
         LogException "Supabase Auth List Users failed" vault_sealed]).
Proof.
  split; [reflexivity |].
  exact (proj1 (proj2 (proj2
           (proj1 (store_failure_is_not_absence
                     healthy_sdk broken_store sample_environ vault_sealed
                     eq_refl)
                  eq_refl)))).
Defined.

(** ** Filters and the executed request *)

Lemma items_falsy qf : filter_truthy qf = false -> items qf = [].
Proof. now destruct qf as [[| kv d] |]. Qed.

Lemma items_truthy qf : filter_truthy qf = true -> items qf <> [].
Proof. now destruct qf as [[| kv d] |]. Qed.

Ltac not_executed :=
  let H := fresh in
  intros H; exfalso; revert H; count_leaf; discriminate.

Lemma apply_filters_fails sdk r pre r' k v e rest :
  filtered sdk r pre r' ->
  sdk_eq sdk r' k v = Raise e ->
  apply_filters sdk r (pre ++ (k, v) :: rest)
  = (Raise e, eq_events pre ++ [EqCond k v]).
Proof.
  intros Hf He.
  induction Hf as [r | r k0 v0 r1 rest0 r2 Heq _ IH]; cbn [app apply_filters].
  - now rewrite (bind_call_Raise _ _ _ _ He).
  - rewrite (bind_call_Ok _ _ _ r1 Heq), (IH He). reflexivity.
Qed.

Lemma filter_truthy_middle (pre : pydict) kv rest :
  filter_truthy (Some (pre ++ kv :: rest)) = true.
Proof. now destruct pre. Qed.

(** X7: when the SDK rejects one of the equality conditions, the conditions
    after it are not attempted and the request is not executed: select,
    update and delete alike return the error dictionary with the SDK's
    message, and the last SDK call made is the rejected condition. *)
Theorem rejected_filter_stops_the_request :
  forall sdk credentials env table c b evs pre k v rest e p,
    _get_supabase_client sdk credentials env = (Ok c, evs) ->
    sdk_table sdk c table = Ok b ->
    (forall r0 r,
        sdk_select sdk b "*" = Ok r0 ->
        filtered sdk r0 pre r ->
        sdk_eq sdk r k v = Raise e ->
        supabase_db_query sdk credentials env table "select"
          (Some (pre ++ (k, v) :: rest)) p
        = (Ok [("error", VStr ("Failed to execute DB query: " ++ exn_str e))],
           evs ++ [Table table; Select "*"] ++ eq_events pre
               ++ [EqCond k v; LogException "Supabase DB Query failed" e]))
    /\ (forall r0 r,
        payload_truthy p = true ->
        sdk_update sdk b p = Ok r0 ->
        filtered sdk r0 pre r ->
        sdk_eq sdk r k v = Raise e ->
        supabase_db_query sdk credentials env table "update"
          (Some (pre ++ (k, v) :: rest)) p
        = (Ok [("error", VStr ("Failed to execute DB query: " ++ exn_str e))],
           evs ++ [Table table; Update p] ++ eq_events pre
               ++ [EqCond k v; LogException "Supabase DB Query failed" e]))
    /\ (forall r0 r,
        sdk_delete sdk b = Ok r0 ->
        filtered sdk r0 pre r ->
        sdk_eq sdk r k v = Raise e ->
        supabase_db_query sdk credentials env table "delete"
          (Some (pre ++ (k, v) :: rest)) p
        = (Ok [("error", VStr ("Failed to execute DB query: " ++ exn_str e))],
           evs ++ [Table table; Delete] ++ eq_events pre
               ++ [EqCond k v; LogException "Supabase DB Query failed" e])).
Proof.
  intros sdk credentials env table c b evs pre k v rest e p Hc Ht.
  split; [| split].
  - intros r0 r Hs Hf He.
    assert (Hbody : supabase_db_query_try sdk credentials env table "select"
                      (Some (pre ++ (k, v) :: rest)) p
                    = (Raise e, evs ++ [Table table; Select "*"]
                                    ++ eq_events pre ++ [EqCond k v])).
    { unfold supabase_db_query_try. literal_actions.
      rewrite (bind_Ok _ _ _ _ Hc), (bind_call_Ok _ _ _ _ Ht),
        (bind_call_Ok _ _ _ _ Hs), filter_truthy_middle.
      cbn [items].
      rewrite (bind_Raise _ _ _ _ (apply_filters_fails _ _ _ _ _ _ _ rest Hf He)).
      reflexivity. }
    rewrite (db_query_caught _ _ _ _ _ _ _ _ _ Hbody), <- !app_assoc.
    reflexivity.
  - intros r0 r Hp Hu Hf He.
    assert (Hbody : supabase_db_query_try sdk credentials env table "update"
                      (Some (pre ++ (k, v) :: rest)) p
                    = (Raise e, evs ++ [Table table; Update p]
                                    ++ eq_events pre ++ [EqCond k v])).
    { unfold supabase_db_query_try. literal_actions.
      rewrite Hp, filter_truthy_middle. cbn [negb items].
      rewrite (bind_Ok _ _ _ _ Hc), (bind_call_Ok _ _ _ _ Ht),
        (bind_call_Ok _ _ _ _ Hu).
      rewrite (bind_Raise _ _ _ _ (apply_filters_fails _ _ _ _ _ _ _ rest Hf He)).
      reflexivity. }
    rewrite (db_query_caught _ _ _ _ _ _ _ _ _ Hbody), <- !app_assoc.
    reflexivity.
  - intros r0 r Hd Hf He.
    assert (Hbody : supabase_db_query_try sdk credentials env table "delete"
                      (Some (pre ++ (k, v) :: rest)) p
                    = (Raise e, evs ++ [Table table; Delete]
                                    ++ eq_events pre ++ [EqCond k v])).
    { unfold supabase_db_query_try. literal_actions.
      rewrite filter_truthy_middle. cbn [negb items].
      rewrite (bind_Ok _ _ _ _ Hc), (bind_call_Ok _ _ _ _ Ht),
        (bind_call_Ok _ _ _ _ Hd).
      rewrite (bind_Raise _ _ _ _ (apply_filters_fails _ _ _ _ _ _ _ rest Hf He)).
      reflexivity. }
    rewrite (db_query_caught _ _ _ _ _ _ _ _ _ Hbody), <- !app_assoc.
    reflexivity.
Qed.

Lemma rejected_filter_stops_the_request_witness :
  supabase_db_query strict_sdk None sample_environ "users" "delete"
    (Some ([("status", VStr "inactive")]
           ++ ("ghost", VInt 1) :: [("id", VInt 7)])) PNone
  = (Ok [("error", VStr "Failed to execute DB query: column does not exist")],
     [CreateClient "https://env.supabase.co" "env-key"; Table "users"; Delete;
      EqCond "status" (VStr "inactive"); EqCond "ghost" (VInt 1);
      LogException "Supabase DB Query failed" unknown_column]).
Proof.
  exact (proj2 (proj2 (rejected_filter_stops_the_request
                         strict_sdk None sample_environ "users"
                         ("https://env.supabase.co", "env-key") "users"
                         [CreateClient "https://env.supabase.co" "env-key"]
                         [("status", VStr "inactive")] "ghost" (VInt 1)
                         [("id", VInt 7)] unknown_column PNone
                         eq_refl eq_refl))
               [Table "users"; Delete]
               [Table "users"; Delete; EqCond "status" (VStr "inactive")]
               eq_refl
               (filtered_cons strict_sdk [Table "users"; Delete]
                  "status" (VStr "inactive")
                  [Table "users"; Delete; EqCond "status" (VStr "inactive")]
                  [] _ eq_refl (filtered_nil strict_sdk _))
               eq_refl).
Defined.

(** ** Responses the select path cannot count *)

(** X8: select needs a response whose [data] has a length.  When the
    executed request returns an object without [data], or with [data] that
    has no length (such as [None]), the request has been sent but the tool
    returns the error dictionary with the attribute or type error's
    message. *)
Theorem select_needs_countable_data :
  forall sdk credentials env table c b evs qf p r0 r res,
    _get_supabase_client sdk credentials env = (Ok c, evs) ->
    sdk_table sdk c table = Ok b ->
    sdk_select sdk b "*" = Ok r0 ->
    filtered sdk r0 (items qf) r ->
    sdk_execute sdk r = Ok res ->
    (dict_get "data" (py_attrs res) = None ->
     supabase_db_query sdk credentials env table "select" qf p
     = (Ok [("error",
             VStr ("Failed to execute DB query: '" ++ py_type_name res
                   ++ "' object has no attribute 'data'"))],
        evs ++ [Table table; Select "*"] ++ eq_events (items qf)
            ++ [Execute;
                LogException "Supabase DB Query failed"
                  (attribute_error res "data")]))
    /\ (forall data e,
        dict_get "data" (py_attrs res) = Some data ->
        py_len data = raise e ->
        supabase_db_query sdk credentials env table "select" qf p
        = (Ok [("error", VStr ("Failed to execute DB query: " ++ exn_str e))],
           evs ++ [Table table; Select "*"] ++ eq_events (items qf)
               ++ [Execute; LogException "Supabase DB Query failed" e])).
Proof.
  intros sdk credentials env table c b evs qf p r0 r res Hc Ht Hs Hf Hx.
  split.
  - intros Hnone.
    assert (Hbody : supabase_db_query_try sdk credentials env table "select" qf p
                    = (Raise (attribute_error res "data"),
                       evs ++ [Table table; Select "*"]
                           ++ eq_events (items qf) ++ [Execute])).
    { unfold supabase_db_query_try. literal_actions.
      rewrite (bind_Ok _ _ _ _ Hc), (bind_call_Ok _ _ _ _ Ht),
        (bind_call_Ok _ _ _ _ Hs),
        (bind_Ok _ _ _ _ (filter_loop_filtered _ _ _ _ Hf)),
        (bind_call_Ok _ _ _ _ Hx).
      unfold py_getattr. rewrite Hnone.
      reflexivity. }
    rewrite (db_query_caught _ _ _ _ _ _ _ _ _ Hbody), <- !app_assoc.
    reflexivity.
  - intros data e Hd Hlen.
    assert (Hbody : supabase_db_query_try sdk credentials env table "select" qf p
                    = (Raise e,
                       evs ++ [Table table; Select "*"]
                           ++ eq_events (items qf) ++ [Execute])).
    { unfold supabase_db_query_try. literal_actions.
      rewrite (bind_Ok _ _ _ _ Hc), (bind_call_Ok _ _ _ _ Ht),
        (bind_call_Ok _ _ _ _ Hs),
        (bind_Ok _ _ _ _ (filter_loop_filtered _ _ _ _ Hf)),
        (bind_call_Ok _ _ _ _ Hx), (data_attribute _ _ Hd), !bind_ret, Hlen.
      reflexivity. }
    rewrite (db_query_caught _ _ _ _ _ _ _ _ _ Hbody), <- !app_assoc.
    reflexivity.
Qed.

Lemma select_needs_countable_data_witness :
  supabase_db_query (execute_sdk (VObj "APIResponse" [("data", VNone)]))
    None sample_environ "users" "select" None PNone
  = (Ok [("error",
          VStr "Failed to execute DB query: object of type 'NoneType' has no len()")],
     [CreateClient "https://env.supabase.co" "env-key"; Table "users";
      Select "*"; Execute;
      LogException "Supabase DB Query failed"
        (MkExn TypeError "object of type 'NoneType' has no len()")]).
Proof.
  exact (proj2 (select_needs_countable_data
                  (execute_sdk (VObj "APIResponse" [("data", VNone)]))
                  None sample_environ "users"
                  ("https://env.supabase.co", "env-key") "users"
                  [CreateClient "https://env.supabase.co" "env-key"]
                  None PNone [Table "users"; Select "*"]
                  [Table "users"; Select "*"]
                  (VObj "APIResponse" [("data", VNone)])
                  eq_refl eq_refl eq_refl
                  (filtered_nil _ _) eq_refl)
               VNone (MkExn TypeError "object of type 'NoneType' has no len()")
               eq_refl eq_refl).
Defined.

(** ** Listings: records, iteration and counts *)

(** X9: the user listing is all or nothing.  As soon as one returned record
    lacks [id], the records before it are discarded and those after it are
    not looked at: the call returns the error dictionary with the attribute
    error's message. *)
Theorem user_without_id_fails_whole_listing :
  forall sdk credentials env c evs res pre u rest,
    _get_supabase_client sdk credentials env = (Ok c, evs) ->
    sdk_list_users sdk c = Ok res ->
    dict_get "users" (py_attrs res) = Some (VList (pre ++ u :: rest)) ->
    (forall x, In x pre -> py_hasattr x "id" = true) ->
    py_hasattr u "id" = false ->
    supabase_auth_list_users sdk credentials env
    = (Ok [("error",
            VStr ("Failed to list auth users: '" ++ py_type_name u
                  ++ "' object has no attribute 'id'"))],
       evs ++ [ListUsers;
               LogException "Supabase Auth List Users failed"
                 (attribute_error u "id")]).
Proof.
  intros sdk credentials env c evs res pre u rest Hc Hl Hus Hpre Hu.
  assert (Hbody : supabase_auth_list_users_try sdk credentials env
                  = (Raise (attribute_error u "id"), evs ++ [ListUsers])).
  { unfold supabase_auth_list_users_try.
    destruct (users_attribute _ _ Hus) as [Hhas Hget].
    rewrite (bind_Ok _ _ _ _ Hc), (bind_call_Ok _ _ _ _ Hl), Hhas, Hget.
    rewrite bind_ret. cbn [py_iter]. rewrite bind_ret.
    rewrite (users_loop_missing_id pre u rest [] Hpre Hu).
    reflexivity. }
  rewrite (auth_list_users_caught _ _ _ _ _ Hbody), <- app_assoc.
  reflexivity.
Qed.

Lemma user_without_id_fails_whole_listing_witness :
  supabase_auth_list_users (users_sdk ([sample_user] ++ user_without_id :: []))
    None sample_environ
  = (Ok [("error",
          VStr "Failed to list auth users: 'User' object has no attribute 'id'")],
     [CreateClient "https://env.supabase.co" "env-key"; ListUsers;
      LogException "Supabase Auth List Users failed"
        (attribute_error user_without_id "id")]).
Proof.
  refine (user_without_id_fails_whole_listing
            (users_sdk ([sample_user] ++ user_without_id :: []))
            None sample_environ
            ("https://env.supabase.co", "env-key")
            [CreateClient "https://env.supabase.co" "env-key"]
            (VObj "UserResponse"
               [("users", VList ([sample_user] ++ user_without_id :: []))])
            [sample_user] user_without_id []
            eq_refl eq_refl eq_refl _ eq_refl).
  intros x [<- | []]. reflexivity.
Defined.

(** X10: the bucket listing never fails on a bucket.  Once the client is
    obtained and the SDK returns a list, every item -- whatever it is and
    whatever attributes it lacks, [id] included -- becomes a record with
    exactly the fields [id], [name], [public] and [created_at], each the
    item's attribute or [None]; the records keep the order of the items and
    [count] is their number. *)
Theorem bucket_records_projected :
  forall sdk credentials env c evs bs,
    _get_supabase_client sdk credentials env = (Ok c, evs) ->
    sdk_list_buckets sdk c = Ok (VList bs) ->
    supabase_storage_list_buckets sdk credentials env
    = (Ok [("success", VBool true);
           ("data", VList (map project_bucket bs));
           ("count", VInt (Z.of_nat (List.length bs)))],
       evs ++ [ListBuckets])
    /\ (forall b,
        exists d,
          project_bucket b = VDict d
          /\ dict_keys d = ["id"; "name"; "public"; "created_at"]
          /\ (forall field,
              In field ["id"; "name"; "public"; "created_at"] ->
              dict_get field d
              = Some (match dict_get field (py_attrs b) with
                      | Some v => v
                      | None => VNone
                      end))).
Proof.
  intros sdk credentials env c evs bs Hc Hl. split.
  - apply storage_list_buckets_returned.
    unfold supabase_storage_list_buckets_try.
    rewrite (bind_Ok _ _ _ _ Hc), (bind_call_Ok _ _ _ _ Hl).
    cbn [py_iter]. rewrite bind_ret. cbv zeta.
    rewrite buckets_loop_map. cbn [app]. rewrite length_map. reflexivity.
  - intros b. eexists. split; [reflexivity |]. split; [reflexivity |].
    intros field [<- | [<- | [<- | [<- | []]]]]; reflexivity.
Qed.

Lemma bucket_records_projected_witness :
  supabase_storage_list_buckets
    (buckets_sdk (VList [sample_bucket; VObj "Bucket" []; VInt 3]))
    None sample_environ
  = (Ok [("success", VBool true);
         ("data",
          VList [VDict [("id", VStr "bucket-1"); ("name", VStr "Public Assets");
                        ("public", VNone); ("created_at", VNone)];
                 VDict [("id", VNone); ("name", VNone);
                        ("public", VNone); ("created_at", VNone)];
                 VDict [("id", VNone); ("name", VNone);
                        ("public", VNone); ("created_at", VNone)]]);
         ("count", VInt 3)],
     [CreateClient "https://env.supabase.co" "env-key"; ListBuckets]).
Proof.
  exact (proj1 (bucket_records_projected
                  (buckets_sdk (VList [sample_bucket; VObj "Bucket" []; VInt 3]))
                  None sample_environ
                  ("https://env.supabase.co", "env-key")
                  [CreateClient "https://env.supabase.co" "env-key"]
                  [sample_bucket; VObj "Bucket" []; VInt 3]
                  eq_refl eq_refl)).
Defined.

(** X11: a listing response that cannot be iterated is an error, not an
    empty listing.  When [list_buckets] returns, or the [users] attribute
    holds, a value a [for] loop cannot run over (such as [None]), the tool
    returns the error dictionary with the type error's message. *)
Theorem uniterable_listing_is_an_error :
  forall sdk credentials env c evs e,
    _get_supabase_client sdk credentials env = (Ok c, evs) ->
    (forall resp,
        sdk_list_buckets sdk c = Ok resp ->
        py_iter resp = raise e ->
        supabase_storage_list_buckets sdk credentials env
        = (Ok [("error",
                VStr ("Failed to list storage buckets: " ++ exn_str e))],
           evs ++ [ListBuckets;
                   LogException "Supabase Storage List Buckets failed" e]))
    /\ (forall res users,
        sdk_list_users sdk c = Ok res ->
        dict_get "users" (py_attrs res) = Some users ->
        py_iter users = raise e ->
        supabase_auth_list_users sdk credentials env
        = (Ok [("error", VStr ("Failed to list auth users: " ++ exn_str e))],
           evs ++ [ListUsers;
                   LogException "Supabase Auth List Users failed" e])).
Proof.
  intros sdk credentials env c evs e Hc. split.
  - intros resp Hl Hit.
    assert (Hbody : supabase_storage_list_buckets_try sdk credentials env
                    = (Raise e, evs ++ [ListBuckets])).
    { unfold supabase_storage_list_buckets_try.
      rewrite (bind_Ok _ _ _ _ Hc), (bind_call_Ok _ _ _ _ Hl), Hit.
      reflexivity. }
    rewrite (storage_list_buckets_caught _ _ _ _ _ Hbody), <- app_assoc.
    reflexivity.
  - intros res users Hl Hus Hit.
    assert (Hbody : supabase_auth_list_users_try sdk credentials env
                    = (Raise e, evs ++ [ListUsers])).
    { unfold supabase_auth_list_users_try.
      destruct (users_attribute _ _ Hus) as [Hhas Hget].
      rewrite (bind_Ok _ _ _ _ Hc), (bind_call_Ok _ _ _ _ Hl), Hhas, Hget.
      rewrite bind_ret, Hit. reflexivity. }
    rewrite (auth_list_users_caught _ _ _ _ _ Hbody), <- app_assoc.
    reflexivity.
Qed.

Lemma uniterable_listing_is_an_error_witness :
  supabase_storage_list_buckets (buckets_sdk VNone) None sample_environ
  = (Ok [("error",
          VStr "Failed to list storage buckets: 'NoneType' object is not iterable")],
     [CreateClient "https://env.supabase.co" "env-key"; ListBuckets;
      LogException "Supabase Storage List Buckets failed"
        (MkExn TypeError "'NoneType' object is not iterable")]).
Proof.
  exact (proj1 (uniterable_listing_is_an_error
                  (buckets_sdk VNone) None sample_environ
                  ("https://env.supabase.co", "env-key")
                  [CreateClient "https://env.supabase.co" "env-key"]
                  (MkExn TypeError "'NoneType' object is not iterable")
                  eq_refl)
               VNone eq_refl eq_refl).
Defined.

Ltac same_attribute :=
  repeat match goal with
         | H1 : ?t = Some ?a, H2 : ?t = Some ?b |- _ =>
             rewrite H1 in H2; injection H2 as ->
         end.

Ltac count_leaf_data :=
  cbv beta iota;
  first
    [ exact I
    | let n := fresh "n" in
      let Hn := fresh "Hn" in
      intros n Hn; cbn in Hn;
      first
        [ discriminate Hn
        | injection Hn as <-; same_attribute;
          eexists; eexists; split; [reflexivity | split; reflexivity] ] ].

Lemma db_query_count_post sdk credentials env table action qf p :
  post (fun o _ =>
          match o with
          | Ok d =>
              forall n,
                dict_get "count" d = Some n ->
                exists v len,
                  dict_get "data" d = Some v
                  /\ py_len v = ret len
                  /\ n = VInt len
          | Raise _ => True
          end)
       (supabase_db_query sdk credentials env table action qf p).
Proof.
  unfold supabase_db_query, supabase_db_query_try, error_dict.
  repeat post_step; count_leaf_data.
Qed.

Lemma auth_list_users_count_post sdk credentials env :
  post (fun o _ =>
          match o with
          | Ok d =>
              forall n,
                dict_get "count" d = Some n ->
                exists v len,
                  dict_get "data" d = Some v
                  /\ py_len v = ret len
                  /\ n = VInt len
          | Raise _ => True
          end)
       (supabase_auth_list_users sdk credentials env).
Proof.
  unfold supabase_auth_list_users, supabase_auth_list_users_try, error_dict.
  repeat post_step;
    try (apply users_loop_post; intros [users_list | e]; cbv beta iota;
         repeat post_step);
    count_leaf_data.
Qed.

Lemma storage_list_buckets_count_post sdk credentials env :
  post (fun o _ =>
          match o with
          | Ok d =>
              forall n,
                dict_get "count" d = Some n ->
                exists v len,
                  dict_get "data" d = Some v
                  /\ py_len v = ret len
                  /\ n = VInt len
          | Raise _ => True
          end)
       (supabase_storage_list_buckets sdk credentials env).
Proof.
  unfold supabase_storage_list_buckets, supabase_storage_list_buckets_try,
    error_dict.
  cbv zeta. repeat post_step; count_leaf_data.
Qed.

(** X12: whenever the result of a tool carries [count], it also carries
    [data], and [count] is [len(data)]. *)
Theorem count_is_the_length_of_data :
  forall sdk credentials env d n,
    dict_get "count" d = Some n ->
    (forall table action qf p,
        outcome_of (supabase_db_query sdk credentials env table action qf p)
        = Ok d ->
        exists v len,
          dict_get "data" d = Some v /\ py_len v = ret len /\ n = VInt len)
    /\ (outcome_of (supabase_auth_list_users sdk credentials env) = Ok d ->
        exists v len,
          dict_get "data" d = Some v /\ py_len v = ret len /\ n = VInt len)
    /\ (outcome_of (supabase_storage_list_buckets sdk credentials env) = Ok d ->
        exists v len,
          dict_get "data" d = Some v /\ py_len v = ret len /\ n = VInt len).
Proof.
  intros sdk credentials env d n Hn. split; [| split].
  - intros table action qf p Hd.
    pose proof (db_query_count_post sdk credentials env table action qf p) as H.
    unfold post, pydict in *. rewrite Hd in H. now apply H.
  - intros Hd.
    pose proof (auth_list_users_count_post sdk credentials env) as H.
    unfold post, pydict in *. rewrite Hd in H. now apply H.
  - intros Hd.
    pose proof (storage_list_buckets_count_post sdk credentials env) as H.
    unfold post, pydict in *. rewrite Hd in H. now apply H.
Qed.

Lemma count_is_the_length_of_data_witness :
  exists v len,
    dict_get "data"
      [("success", VBool true); ("data", VList [sample_row]); ("count", VInt 1)]
    = Some v
    /\ py_len v = ret len /\ VInt 1 = VInt len.
Proof.
  exact (proj1 (count_is_the_length_of_data
                  healthy_sdk None sample_environ
                  [("success", VBool true); ("data", VList [sample_row]);
                   ("count", VInt 1)]
                  (VInt 1) eq_refl)
               "users" "select" None PNone eq_refl).
Defined.

(** ** The declared credentials and the resolver *)

Lemma lookup_without_store :
  credentials_lookup None = (Ok (None, None), []).
Proof. reflexivity. Qed.

(** X13: without a credential store, the environment variables that
    [SUPABASE_CREDENTIALS] declares are exactly what the resolver needs.  If
    every declared variable is set to a non-empty value, the resolver
    creates the client from the values of [SUPABASE_URL] and
    [SUPABASE_SERVICE_ROLE_KEY]; if some declared variable is unset or
    empty, it raises the configuration error without creating a client. *)
Theorem declared_credentials_decide_resolution :
  forall sdk env,
    ((forall name spec,
         In (name, spec) SUPABASE_CREDENTIALS ->
         str_truthy (os_getenv env (env_var spec)) = true) ->
     exists u k,
       os_getenv env SUPABASE_URL = Some u
       /\ os_getenv env SUPABASE_SERVICE_ROLE_KEY = Some k
       /\ _get_supabase_client sdk None env
          = (create_client sdk u k, [CreateClient u k]))
    /\ ((exists name spec,
            In (name, spec) SUPABASE_CREDENTIALS
            /\ str_truthy (os_getenv env (env_var spec)) = false) ->
        _get_supabase_client sdk None env = (Raise missing_credentials, [])).
Proof.
  intros sdk env. split.
  - intros Hall.
    pose proof (Hall _ _ (or_introl eq_refl)) as Hu.
    pose proof (Hall _ _ (or_intror (or_introl eq_refl))) as Hk.
    cbn [env_var] in Hu, Hk.
    destruct (os_getenv env "SUPABASE_URL") as [u |] eqn:Eu;
      [| discriminate Hu].
    destruct (os_getenv env "SUPABASE_SERVICE_ROLE_KEY") as [k |] eqn:Ek;
      [| discriminate Hk].
    exists u, k. split; [exact Eu |]. split; [exact Ek |].
    apply (client_of_lookup sdk None env None None [] u k lookup_without_store).
    + exact Eu.
    + exact Ek.
    + intros ->. discriminate Hu.
    + intros ->. discriminate Hk.
  - intros (name & spec & Hin & Hmiss).
    apply (client_of_lookup_missing sdk None env None None []
             lookup_without_store).
    destruct Hin as [Heq | [Heq | []]]; injection Heq as <- <-;
      cbn [env_var] in Hmiss; [left | right]; exact Hmiss.
Qed.

Lemma declared_credentials_decide_resolution_witness :
  _get_supabase_client healthy_sdk None sample_environ
  = (Ok ("https://env.supabase.co", "env-key"),
     [CreateClient "https://env.supabase.co" "env-key"])
  /\ _get_supabase_client healthy_sdk None empty_environ
     = (Raise missing_credentials, []).
Proof.
  split.
  - destruct (proj1 (declared_credentials_decide_resolution
                       healthy_sdk sample_environ)) as (u & k & Hu & Hk & H).
    + intros name spec [Heq | [Heq | []]]; injection Heq as <- <-; reflexivity.
    + injection Hu as <-. injection Hk as <-. exact H.
  - apply (proj2 (declared_credentials_decide_resolution
                    healthy_sdk empty_environ)).
    eexists _, _. split; [left; reflexivity | reflexivity].
Defined.

(** ** What a call never builds *)

Ltac absurd_action :=
  match goal with
  | Hne : ?a <> ?s, Heq : (?a =? ?s) = true |- _ =>
      exfalso; apply Hne; now apply String.eqb_eq
  end.

Ltac quiet_leaf :=
  cbv beta iota;
  first
    [ absurd_action
    | subst; rewrite ?count_events_app;
      repeat match goal with
             | H : forallb ?Q ?l = true |- context [count_events ?P ?l] =>
                 rewrite (count_events_none P Q l H)
                   by (intros [] ?; (discriminate || reflexivity))
             end;
      rewrite ?(count_events_none _ _ _ (eq_events_forallb _))
        by (intros [] ?; (discriminate || reflexivity));
      reflexivity ].

Lemma reads_build_no_write sdk credentials env table action qf p :
  action <> "insert" -> action <> "update" -> action <> "delete" ->
  post (fun _ evs => count_events write_event evs = 0)
       (supabase_db_query sdk credentials env table action qf p).
Proof.
  intros Hi Hu Hd.
  unfold supabase_db_query, supabase_db_query_try, error_dict.
  repeat post_step; quiet_leaf.
Qed.

Lemma insert_applies_no_filter sdk credentials env table qf p :
  post (fun _ evs => count_events eq_event evs = 0)
       (supabase_db_query sdk credentials env table "insert" qf p).
Proof.
  unfold supabase_db_query, supabase_db_query_try, error_dict. literal_actions.
  repeat post_step; quiet_leaf.
Qed.

(** X14: a call whose action is not insert, update or delete -- a select in
    particular -- never builds an insert, update or delete request, and an
    insert never applies an equality condition, whatever filter it is
    given. *)
Theorem reads_never_write :
  forall sdk credentials env table qf p,
    (forall action,
        action <> "insert" -> action <> "update" -> action <> "delete" ->
        count_events write_event
          (events_of (supabase_db_query sdk credentials env table action qf p))
        = 0)
    /\ count_events eq_event
         (events_of (supabase_db_query sdk credentials env table "insert" qf p))
       = 0.
Proof.
  intros sdk credentials env table qf p. split.
  - intros action Hi Hu Hd.
    now apply (reads_build_no_write sdk credentials env table action qf p).
  - apply (insert_applies_no_filter sdk credentials env table qf p).
Qed.

Lemma reads_never_write_witness :
  count_events write_event
    (events_of (supabase_db_query healthy_sdk None sample_environ "users"
                  "select" (Some [("status", VStr "active")])
                  (PRecord [("name", VStr "Test")]))) = 0.
Proof.
  apply (proj1 (reads_never_write healthy_sdk None sample_environ "users"
                  (Some [("status", VStr "active")])
                  (PRecord [("name", VStr "Test")])) "select");
    discriminate.
Defined.

(** * Call sites, order of events and the executed request *)

(** ** Running a [try] suite along known answers *)

Ltac run_suite :=
  repeat (cbv beta;
          match goal with
          | H : ?m = (Ok ?a, ?evs) |- context [bind ?m ?f] =>
              rewrite (bind_Ok m f a evs H)
          | H : ?m = (Raise ?e, ?evs) |- context [bind ?m ?f] =>
              rewrite (bind_Raise m f e evs H)
          | H : ?o = Ok ?a |- context [bind (call ?ev ?o) ?f] =>
              rewrite (bind_call_Ok ev o f a H)
          | H : ?o = Raise ?e |- context [bind (call ?ev ?o) ?f] =>
              rewrite (bind_call_Raise ev o f e H)
          end).

Ltac settle_events :=
  unfold prefixed, outcome_of, events_of; cbn [fst snd];
  rewrite <- ?app_assoc; cbn [app]; reflexivity.

Lemma select_up_to_execute sdk credentials env table qf p c evs b r0 r :
  _get_supabase_client sdk credentials env = (Ok c, evs) ->
  sdk_table sdk c table = Ok b ->
  sdk_select sdk b "*" = Ok r0 ->
  filtered sdk r0 (items qf) r ->
  supabase_db_query_try sdk credentials env table "select" qf p
  = prefixed (evs ++ [Table table; Select "*"] ++ eq_events (items qf))
      (res <- call Execute (sdk_execute sdk r) ;;
       data <- py_getattr res "data" ;;
       data' <- py_getattr res "data" ;;
       count <- py_len data' ;;
       ret [("success", VBool true); ("data", data); ("count", VInt count)]).
Proof.
  intros Hc Ht Hs Hf.
  pose proof (filter_loop_filtered _ _ _ _ Hf) as Hloop.
  unfold supabase_db_query_try. literal_actions.
  run_suite. settle_events.
Qed.

Lemma insert_up_to_execute sdk credentials env table qf p c evs b r :
  _get_supabase_client sdk credentials env = (Ok c, evs) ->
  sdk_table sdk c table = Ok b ->
  payload_truthy p = true ->
  sdk_insert sdk b p = Ok r ->
  supabase_db_query_try sdk credentials env table "insert" qf p
  = prefixed (evs ++ [Table table; Insert p])
      (res <- call Execute (sdk_execute sdk r) ;;
       data <- py_getattr res "data" ;;
       ret [("success", VBool true); ("data", data)]).
Proof.
  intros Hc Ht Hp Hi.
  unfold supabase_db_query_try. literal_actions. rewrite Hp. cbn [negb].
  run_suite. settle_events.
Qed.

Lemma update_up_to_execute sdk credentials env table qf p c evs b r0 r :
  _get_supabase_client sdk credentials env = (Ok c, evs) ->
  sdk_table sdk c table = Ok b ->
  payload_truthy p = true ->
  filter_truthy qf = true ->
  sdk_update sdk b p = Ok r0 ->
  filtered sdk r0 (items qf) r ->
  supabase_db_query_try sdk credentials env table "update" qf p
  = prefixed (evs ++ [Table table; Update p] ++ eq_events (items qf))
      (res <- call Execute (sdk_execute sdk r) ;;
       data <- py_getattr res "data" ;;
       ret [("success", VBool true); ("data", data)]).
Proof.
  intros Hc Ht Hp Hq Hu Hf.
  pose proof (apply_filters_filtered _ _ _ _ Hf) as Hloop.
  unfold supabase_db_query_try. literal_actions. rewrite Hp, Hq. cbn [negb].
  run_suite. settle_events.
Qed.

Lemma delete_up_to_execute sdk credentials env table qf p c evs b r0 r :
  _get_supabase_client sdk credentials env = (Ok c, evs) ->
  sdk_table sdk c table = Ok b ->
  filter_truthy qf = true ->
  sdk_delete sdk b = Ok r0 ->
  filtered sdk r0 (items qf) r ->
  supabase_db_query_try sdk credentials env table "delete" qf p
  = prefixed (evs ++ [Table table; Delete] ++ eq_events (items qf))
      (res <- call Execute (sdk_execute sdk r) ;;
       data <- py_getattr res "data" ;;
       ret [("success", VBool true); ("data", data)]).
Proof.
  intros Hc Ht Hq Hd Hf.
  pose proof (apply_filters_filtered _ _ _ _ Hf) as Hloop.
  unfold supabase_db_query_try. literal_actions. rewrite Hq. cbn [negb].
  run_suite. settle_events.
Qed.

Lemma prefixed_raise {A B} evs ev (o : outcome A) (f : A -> M B) e :
  o = Raise e ->
  prefixed evs (bind (call ev o) f) = (Raise e, evs ++ [ev]).
Proof. now intros ->. Qed.

Lemma db_query_failure sdk credentials env table action qf p e evs :
  supabase_db_query_try sdk credentials env table action qf p = (Raise e, evs) ->
  supabase_db_query sdk credentials env table action qf p
  = query_failure e evs.
Proof. exact (db_query_caught _ _ _ _ _ _ _ _ _). Qed.

Lemma auth_list_users_failure sdk credentials env e evs :
  supabase_auth_list_users_try sdk credentials env = (Raise e, evs) ->
  supabase_auth_list_users sdk credentials env = users_failure e evs.
Proof. exact (auth_list_users_caught _ _ _ _ _). Qed.

Lemma storage_list_buckets_failure sdk credentials env e evs :
  supabase_storage_list_buckets_try sdk credentials env = (Raise e, evs) ->
  supabase_storage_list_buckets sdk credentials env = buckets_failure e evs.
Proof. exact (storage_list_buckets_caught _ _ _ _ _). Qed.

Ltac suite_raises :=
  unfold supabase_db_query_try, supabase_auth_list_users_try,
    supabase_storage_list_buckets_try;
  literal_actions;
  repeat match goal with
         | H : payload_truthy _ = true |- _ => rewrite H
         | H : filter_truthy _ = true |- _ => rewrite H
         end;
  rewrite ?filter_truthy_middle;
  cbn [negb items];
  run_suite; settle_events.

(** ** C2: backend exceptions *)

(** C2: every exception raised inside a tool is caught, logged and returned
    as the error dictionary with the tool's prefix followed by the
    exception's message; none propagates.  This holds for whatever the
    [try] suite raises, and it is shown at every SDK call the tools make:
    the resolver (and so [create_client]), the table handle, the four
    request builders, each equality condition, [execute] after select,
    insert, update and delete, the user listing and the bucket listing.
    In each case the events are those up to the failing call, followed by
    the log record. *)
Theorem backend_exception_becomes_error_dict :
  forall sdk credentials env e,
    (forall table action qf p evs,
        supabase_db_query_try sdk credentials env table action qf p
        = (Raise e, evs) ->
        supabase_db_query sdk credentials env table action qf p
        = (Ok [("error", VStr ("Failed to execute DB query: " ++ exn_str e))],
           evs ++ [LogException "Supabase DB Query failed" e]))
    /\ (forall evs,
        supabase_auth_list_users_try sdk credentials env = (Raise e, evs) ->
        supabase_auth_list_users sdk credentials env
        = (Ok [("error", VStr ("Failed to list auth users: " ++ exn_str e))],
           evs ++ [LogException "Supabase Auth List Users failed" e]))
    /\ (forall evs,
        supabase_storage_list_buckets_try sdk credentials env = (Raise e, evs) ->
        supabase_storage_list_buckets sdk credentials env
        = (Ok [("error", VStr ("Failed to list storage buckets: " ++ exn_str e))],
           evs ++ [LogException "Supabase Storage List Buckets failed" e]))
    /\ (forall evs,
        _get_supabase_client sdk credentials env = (Raise e, evs) ->
        (forall table action qf p,
            supabase_db_query sdk credentials env table action qf p
            = query_failure e evs)
        /\ supabase_auth_list_users sdk credentials env = users_failure e evs
        /\ supabase_storage_list_buckets sdk credentials env
           = buckets_failure e evs)
    /\ (forall c evs,
        _get_supabase_client sdk credentials env = (Ok c, evs) ->
        (sdk_list_users sdk c = Raise e ->
         supabase_auth_list_users sdk credentials env
         = users_failure e (evs ++ [ListUsers]))
        /\ (sdk_list_buckets sdk c = Raise e ->
            supabase_storage_list_buckets sdk credentials env
            = buckets_failure e (evs ++ [ListBuckets]))
        /\ (forall table action qf p,
            sdk_table sdk c table = Raise e ->
            supabase_db_query sdk credentials env table action qf p
            = query_failure e (evs ++ [Table table]))
        /\ (forall table b qf p,
            sdk_table sdk c table = Ok b ->
            (sdk_select sdk b "*" = Raise e ->
             supabase_db_query sdk credentials env table "select" qf p
             = query_failure e (evs ++ [Table table; Select "*"]))
            /\ (payload_truthy p = true ->
                sdk_insert sdk b p = Raise e ->
                supabase_db_query sdk credentials env table "insert" qf p
                = query_failure e (evs ++ [Table table; Insert p]))
            /\ (payload_truthy p = true ->
                filter_truthy qf = true ->
                sdk_update sdk b p = Raise e ->
                supabase_db_query sdk credentials env table "update" qf p
                = query_failure e (evs ++ [Table table; Update p]))
            /\ (filter_truthy qf = true ->
                sdk_delete sdk b = Raise e ->
                supabase_db_query sdk credentials env table "delete" qf p
                = query_failure e (evs ++ [Table table; Delete]))
            /\ (forall r0 pre k v rest r,
                qf = Some (pre ++ (k, v) :: rest) ->
                filtered sdk r0 pre r ->
                sdk_eq sdk r k v = Raise e ->
                (sdk_select sdk b "*" = Ok r0 ->
                 supabase_db_query sdk credentials env table "select" qf p
                 = query_failure e
                     (evs ++ [Table table; Select "*"] ++ eq_events pre
                          ++ [EqCond k v]))
                /\ (payload_truthy p = true ->
                    sdk_update sdk b p = Ok r0 ->
                    supabase_db_query sdk credentials env table "update" qf p
                    = query_failure e
                        (evs ++ [Table table; Update p] ++ eq_events pre
                             ++ [EqCond k v]))
                /\ (sdk_delete sdk b = Ok r0 ->
                    supabase_db_query sdk credentials env table "delete" qf p
                    = query_failure e
                        (evs ++ [Table table; Delete] ++ eq_events pre
                             ++ [EqCond k v])))
            /\ (forall r0 r,
                filtered sdk r0 (items qf) r ->
                sdk_execute sdk r = Raise e ->
                (sdk_select sdk b "*" = Ok r0 ->
                 supabase_db_query sdk credentials env table "select" qf p
                 = query_failure e
                     (evs ++ [Table table; Select "*"] ++ eq_events (items qf)
                          ++ [Execute]))
                /\ (payload_truthy p = true ->
                    filter_truthy qf = true ->
                    sdk_update sdk b p = Ok r0 ->
                    supabase_db_query sdk credentials env table "update" qf p
                    = query_failure e
                        (evs ++ [Table table; Update p] ++ eq_events (items qf)
                             ++ [Execute]))
                /\ (filter_truthy qf = true ->
                    sdk_delete sdk b = Ok r0 ->
                    supabase_db_query sdk credentials env table "delete" qf p
                    = query_failure e
                        (evs ++ [Table table; Delete] ++ eq_events (items qf)
                             ++ [Execute])))
            /\ (forall r,
                payload_truthy p = true ->
                sdk_insert sdk b p = Ok r ->
                sdk_execute sdk r = Raise e ->
                supabase_db_query sdk credentials env table "insert" qf p
                = query_failure e (evs ++ [Table table; Insert p; Execute])))).
Proof.
  intros sdk credentials env e.
  split; [intros; now apply db_query_caught |].
  split; [intros; now apply auth_list_users_caught |].
  split; [intros; now apply storage_list_buckets_caught |].
  split.
  { intros evs Hr.
    destruct (resolver_failure_in_suites _ _ _ _ _ Hr) as (Hq & Hu & Hb).
    split; [| split].
    - intros. apply db_query_failure, Hq.
    - apply auth_list_users_failure, Hu.
    - apply storage_list_buckets_failure, Hb. }
  intros c evs Hc.
  split; [| split; [| split]].
  - intros Hx. apply auth_list_users_failure. suite_raises.
  - intros Hx. apply storage_list_buckets_failure. suite_raises.
  - intros table action qf p Ht. apply db_query_failure. suite_raises.
  - intros table b qf p Ht.
    split; [| split; [| split; [| split; [| split; [| split]]]]].
    + intros Hx. apply db_query_failure. suite_raises.
    + intros Hp Hx. apply db_query_failure. suite_raises.
    + intros Hp Hq Hx. apply db_query_failure. suite_raises.
    + intros Hq Hx. apply db_query_failure. suite_raises.
    + intros r0 pre k v rest r -> Hf Hx.
      pose proof (apply_filters_fails _ _ _ _ _ _ _ rest Hf Hx) as Hloop.
      split; [| split].
      * intros Hs. apply db_query_failure. suite_raises.
      * intros Hp Hu. apply db_query_failure. suite_raises.
      * intros Hd. apply db_query_failure. suite_raises.
    + intros r0 r Hf Hx. split; [| split].
      * intros Hs. apply db_query_failure.
        rewrite (select_up_to_execute _ _ _ _ _ _ _ _ _ _ _ Hc Ht Hs Hf),
          (prefixed_raise _ _ _ _ _ Hx).
        now rewrite <- !app_assoc.
      * intros Hp Hq Hu. apply db_query_failure.
        rewrite (update_up_to_execute _ _ _ _ _ _ _ _ _ _ _ Hc Ht Hp Hq Hu Hf),
          (prefixed_raise _ _ _ _ _ Hx).
        now rewrite <- !app_assoc.
      * intros Hq Hd. apply db_query_failure.
        rewrite (delete_up_to_execute _ _ _ _ _ _ _ _ _ _ _ Hc Ht Hq Hd Hf),
          (prefixed_raise _ _ _ _ _ Hx).
        now rewrite <- !app_assoc.
    + intros r Hp Hi Hx. apply db_query_failure.
      rewrite (insert_up_to_execute _ _ _ _ _ _ _ _ _ _ Hc Ht Hp Hi),
        (prefixed_raise _ _ _ _ _ Hx).
      now rewrite <- !app_assoc.
Qed.

Lemma backend_exception_becomes_error_dict_witness :
  supabase_db_query failing_sdk None sample_environ
    "users" "select" (Some [("status", VStr "active")]) PNone
  = (Ok [("error", VStr "Failed to execute DB query: connection refused")],
     [CreateClient "https://env.supabase.co" "env-key"; Table "users";
      Select "*"; EqCond "status" (VStr "active"); Execute;
      LogException "Supabase DB Query failed" connection_refused])
  /\ supabase_db_query failing_sdk None sample_environ
       "users" "insert" None (PRecord [("name", VStr "Test")])
     = (Ok [("error", VStr "Failed to execute DB query: connection refused")],
        [CreateClient "https://env.supabase.co" "env-key"; Table "users";
         Insert (PRecord [("name", VStr "Test")]); Execute;
         LogException "Supabase DB Query failed" connection_refused])
  /\ supabase_db_query failing_sdk None sample_environ
       "users" "delete" (Some [("id", VInt 7)]) PNone
     = (Ok [("error", VStr "Failed to execute DB query: connection refused")],
        [CreateClient "https://env.supabase.co" "env-key"; Table "users";
         Delete; EqCond "id" (VInt 7); Execute;
         LogException "Supabase DB Query failed" connection_refused])
  /\ supabase_storage_list_buckets failing_sdk None sample_environ
     = (Ok [("error", VStr "Failed to list storage buckets: connection refused")],
        [CreateClient "https://env.supabase.co" "env-key"; ListBuckets;
         LogException "Supabase Storage List Buckets failed"
           connection_refused]).
Proof.
  destruct (backend_exception_becomes_error_dict
              failing_sdk None sample_environ connection_refused)
    as (_ & _ & _ & _ & H).
  destruct (H ("https://env.supabase.co", "env-key")
              [CreateClient "https://env.supabase.co" "env-key"] eq_refl)
    as (_ & Hbuckets & _ & Hquery).
  split; [| split; [| split]].
  - destruct (Hquery "users" "users" (Some [("status", VStr "active")]) PNone
                eq_refl) as (_ & _ & _ & _ & _ & Hexecute & _).
    exact (proj1 (Hexecute
                    [Table "users"; Select "*"]
                    [Table "users"; Select "*"; EqCond "status" (VStr "active")]
                    (filtered_cons failing_sdk [Table "users"; Select "*"]
                       "status" (VStr "active")
                       [Table "users"; Select "*";
                        EqCond "status" (VStr "active")]
                       [] _ eq_refl (filtered_nil failing_sdk _))
                    eq_refl)
                 eq_refl).
  - destruct (Hquery "users" "users" None (PRecord [("name", VStr "Test")])
                eq_refl) as (_ & _ & _ & _ & _ & _ & Hinsert).
    exact (Hinsert [Table "users"; Insert (PRecord [("name", VStr "Test")])]
             eq_refl eq_refl eq_refl).
  - destruct (Hquery "users" "users" (Some [("id", VInt 7)]) PNone eq_refl)
      as (_ & _ & _ & _ & _ & Hexecute & _).
    exact (proj2 (proj2 (Hexecute
                    [Table "users"; Delete]
                    [Table "users"; Delete; EqCond "id" (VInt 7)]
                    (filtered_cons failing_sdk [Table "users"; Delete]
                       "id" (VInt 7)
                       [Table "users"; Delete; EqCond "id" (VInt 7)]
                       [] _ eq_refl (filtered_nil failing_sdk _))
                    eq_refl))
                 eq_refl eq_refl).
  - exact (Hbuckets eq_refl).
Defined.

(** ** The client comes first *)

Lemma remote_is_not_create ev : remote_event ev = true -> create_event ev = false.
Proof. now destruct ev. Qed.

Lemma client_precedes_app a : forall seen b,
  client_precedes seen (a ++ b)
  = client_precedes seen a
    && client_precedes (seen || existsb create_event a) b.
Proof.
  induction a as [| ev rest IH]; intros seen b; cbn [app client_precedes existsb].
  - now rewrite orb_false_r.
  - destruct (remote_event ev) eqn:Hr.
    + rewrite (remote_is_not_create _ Hr), IH. cbn [orb].
      now rewrite andb_assoc.
    + now rewrite IH, orb_assoc.
Qed.

Lemma client_precedes_quiet (Q : event -> bool) evs seen :
  forallb Q evs = true ->
  (forall ev, Q ev = true -> remote_event ev = false) ->
  client_precedes seen evs = true.
Proof.
  intros HQ Hno. revert seen.
  induction evs as [| ev rest IH]; intros seen; [reflexivity |].
  cbn [forallb] in HQ. apply andb_true_iff in HQ as [Hev Hrest].
  cbn [client_precedes]. rewrite (Hno ev Hev). now apply IH.
Qed.

Lemma no_client_in_quiet (Q : event -> bool) evs :
  forallb Q evs = true ->
  (forall ev, Q ev = true -> create_event ev = false) ->
  existsb create_event evs = false.
Proof.
  intros HQ Hno.
  induction evs as [| ev rest IH]; [reflexivity |].
  cbn [forallb] in HQ. apply andb_true_iff in HQ as [Hev Hrest].
  cbn [existsb]. rewrite (Hno ev Hev). now apply IH.
Qed.

(** What [client_precedes] says, event by event. *)
Lemma client_precedes_spec evs : forall seen,
  client_precedes seen evs = true ->
  forall pre ev post,
    evs = pre ++ ev :: post ->
    remote_event ev = true ->
    seen || existsb create_event pre = true.
Proof.
  induction evs as [| ev0 rest IH]; intros seen Hcp pre ev post Heq Hr.
  - now destruct pre.
  - cbn [client_precedes] in Hcp. destruct pre as [| p0 pre].
    + cbn [app] in Heq. injection Heq as -> ->.
      rewrite Hr in Hcp. apply andb_true_iff in Hcp as [-> _]. reflexivity.
    + cbn [app] in Heq. injection Heq as -> ->. cbn [existsb].
      destruct (remote_event p0) eqn:Hp0.
      * apply andb_true_iff in Hcp as [-> _]. reflexivity.
      * rewrite orb_assoc. exact (IH _ Hcp pre ev post eq_refl Hr).
Qed.

Ltac order_leaf :=
  cbv beta iota; subst;
  rewrite ?client_precedes_app, ?existsb_app;
  repeat match goal with
         | H : forallb ?Q ?l = true |- context [client_precedes ?s ?l] =>
             rewrite (client_precedes_quiet Q l s H)
               by (intros [] ?; (discriminate || reflexivity))
         | H : forallb ?Q ?l = true |- context [existsb create_event ?l] =>
             rewrite (no_client_in_quiet Q l H)
               by (intros [] ?; (discriminate || reflexivity))
         end;
  reflexivity.

Lemma db_query_client_first sdk credentials env table action qf p :
  post (fun _ evs => client_precedes false evs = true)
       (supabase_db_query sdk credentials env table action qf p).
Proof.
  unfold supabase_db_query, supabase_db_query_try, error_dict.
  repeat post_step; order_leaf.
Qed.

Lemma auth_list_users_client_first sdk credentials env :
  post (fun _ evs => client_precedes false evs = true)
       (supabase_auth_list_users sdk credentials env).
Proof.
  unfold supabase_auth_list_users, supabase_auth_list_users_try, error_dict.
  repeat post_step;
    try (apply users_loop_post; intros [users_list | e]; cbv beta iota;
         repeat post_step);
    order_leaf.
Qed.

Lemma storage_list_buckets_client_first sdk credentials env :
  post (fun _ evs => client_precedes false evs = true)
       (supabase_storage_list_buckets sdk credentials env).
Proof.
  unfold supabase_storage_list_buckets, supabase_storage_list_buckets_try,
    error_dict.
  cbv zeta. repeat post_step; order_leaf.
Qed.

(** X1: an invocation of any of the three tools creates at most one client,
    makes at most one remote call (no retry), makes a remote call only
    after it created a client -- every remote call in its events has a
    client creation among the events before it -- and writes at most one
    log record. *)
Theorem one_client_one_call_one_log :
  forall sdk credentials env,
    (forall table action qf p,
        accounted
          (events_of (supabase_db_query sdk credentials env table action qf p))
        /\ count_events log_event
             (events_of (supabase_db_query sdk credentials env
                           table action qf p)) <= 1
        /\ (forall pre ev post,
               events_of (supabase_db_query sdk credentials env
                            table action qf p) = pre ++ ev :: post ->
               remote_event ev = true ->
               existsb create_event pre = true))
    /\ (accounted (events_of (supabase_auth_list_users sdk credentials env))
        /\ count_events log_event
             (events_of (supabase_auth_list_users sdk credentials env)) <= 1
        /\ (forall pre ev post,
               events_of (supabase_auth_list_users sdk credentials env)
               = pre ++ ev :: post ->
               remote_event ev = true ->
               existsb create_event pre = true))
    /\ (accounted (events_of (supabase_storage_list_buckets sdk credentials env))
        /\ count_events log_event
             (events_of (supabase_storage_list_buckets sdk credentials env))
           <= 1
        /\ (forall pre ev post,
               events_of (supabase_storage_list_buckets sdk credentials env)
               = pre ++ ev :: post ->
               remote_event ev = true ->
               existsb create_event pre = true)).
Proof.
  intros sdk credentials env. split; [| split].
  - intros table action qf p.
    destruct (db_query_post sdk credentials env table action qf p)
      as (Ha & Hl & _).
    split; [exact Ha |]. split; [exact Hl |].
    exact (client_precedes_spec _ false
             (db_query_client_first sdk credentials env table action qf p)).
  - destruct (auth_list_users_post sdk credentials env) as (Ha & Hl & _).
    split; [exact Ha |]. split; [exact Hl |].
    exact (client_precedes_spec _ false
             (auth_list_users_client_first sdk credentials env)).
  - destruct (storage_list_buckets_post sdk credentials env) as (Ha & Hl & _).
    split; [exact Ha |]. split; [exact Hl |].
    exact (client_precedes_spec _ false
             (storage_list_buckets_client_first sdk credentials env)).
Qed.

Lemma one_client_one_call_one_log_witness :
  events_of (supabase_db_query healthy_sdk None sample_environ
               "users" "select" None PNone)
  = [CreateClient "https://env.supabase.co" "env-key"; Table "users";
     Select "*"] ++ Execute :: []
  /\ existsb create_event
       [CreateClient "https://env.supabase.co" "env-key"; Table "users";
        Select "*"] = true.
Proof.
  split; [reflexivity |].
  exact (proj2 (proj2 (proj1 (one_client_one_call_one_log
                                healthy_sdk None sample_environ)
                             "users" "select" None PNone))
               [CreateClient "https://env.supabase.co" "env-key";
                Table "users"; Select "*"]
               Execute [] eq_refl eq_refl).
Defined.

(** ** The request that is executed *)

Lemma post_inv {A} (R0 R : outcome A -> list event -> Prop) (m : M A) :
  post R0 m ->
  (forall o evs, m = (o, evs) -> R0 o evs -> R o evs) ->
  post R m.
Proof.
  unfold post. intros H0 H. apply H; [now destruct m | exact H0].
Qed.

Lemma apply_filters_post_chain sdk r entries :
  post (fun o evs =>
          forallb eq_event evs = true
          /\ match o with
             | Ok r' => evs = eq_events entries /\ filtered sdk r entries r'
             | Raise _ => True
             end)
       (apply_filters sdk r entries).
Proof.
  revert r. induction entries as [| [k v] rest IH]; intros r.
  - cbn [apply_filters]. apply post_ret. repeat split. constructor.
  - cbn [apply_filters]. apply post_bind, post_call.
    destruct (sdk_eq sdk r k v) as [r1 | e] eqn:Heq.
    + eapply post_conseq; [apply IH |].
      intros [r2 | e] evs [Hall Hevs]; cbn [app forallb eq_event andb].
      * destruct Hevs as [-> Hf]. repeat split; auto.
        econstructor; eauto.
      * now split.
    + now split.
Qed.

Ltac chain_step :=
  cbv beta iota;
  lazymatch goal with
  | |- post _ (_get_supabase_client ?s ?c ?e) =>
      apply (post_inv _ _ _ (get_supabase_client_resolved s c e));
      let o := fresh "o" in
      let evs := fresh "evs" in
      let Hclient := fresh "Hclient" in
      let lookups := fresh "lookups" in
      let Hlk := fresh "Hlk" in
      let Hres := fresh "Hres" in
      let Hcreate := fresh "Hcreate" in
      intros o evs Hclient (lookups & Hlk & Hres);
      destruct (lookups_counted _ Hlk) as (? & ? & ? & ?);
      destruct Hres as [[-> [? ->]] | (? & ? & -> & _ & _ & _ & _ & ->)];
      [| match goal with
         | |- context [create_client ?s' ?u ?k] =>
             destruct (create_client s' u k) eqn:Hcreate;
             try rewrite Hcreate in Hclient
         end]
  | |- post _ (apply_filters ?s ?r ?es) =>
      apply (post_inv _ _ _ (apply_filters_post_chain s r es));
      let o := fresh "o" in
      let evs := fresh "evs" in
      let Hrun := fresh "Hrun" in
      let Hall := fresh "Hall" in
      let Hevs := fresh "Hevs" in
      intros o evs Hrun [Hall Hevs];
      destruct (eq_events_counted _ Hall) as (? & ? & ?);
      destruct o; [destruct Hevs as [-> ?] |]
  | |- _ => post_step
  end.

Ltac chain_found :=
  intros _;
  repeat match goal with
         | H : negb _ = false |- _ => apply negb_false_iff in H
         | H : filter_truthy ?q = false |- _ => rewrite (items_falsy q H)
         end;
  do 5 eexists;
  repeat match goal with
         | |- _ /\ _ => split
         end;
  first [ eassumption | apply filtered_nil ].

Ltac chain_leaf := cbv beta iota; first [not_executed | chain_found].

Lemma select_reaches_execute sdk credentials env table qf p :
  post (fun _ evs =>
          count_events remote_event evs = 1 ->
          exists c evs0 b r0 r,
            _get_supabase_client sdk credentials env = (Ok c, evs0)
            /\ sdk_table sdk c table = Ok b
            /\ sdk_select sdk b "*" = Ok r0
            /\ filtered sdk r0 (items qf) r)
       (supabase_db_query sdk credentials env table "select" qf p).
Proof.
  unfold supabase_db_query, supabase_db_query_try, error_dict. literal_actions.
  repeat chain_step; chain_leaf.
Qed.

Lemma update_reaches_execute sdk credentials env table qf p :
  post (fun _ evs =>
          count_events remote_event evs = 1 ->
          exists c evs0 b r0 r,
            _get_supabase_client sdk credentials env = (Ok c, evs0)
            /\ sdk_table sdk c table = Ok b
            /\ payload_truthy p = true
            /\ filter_truthy qf = true
            /\ sdk_update sdk b p = Ok r0
            /\ filtered sdk r0 (items qf) r)
       (supabase_db_query sdk credentials env table "update" qf p).
Proof.
  unfold supabase_db_query, supabase_db_query_try, error_dict. literal_actions.
  repeat chain_step; chain_leaf.
Qed.

Lemma delete_reaches_execute sdk credentials env table qf p :
  post (fun _ evs =>
          count_events remote_event evs = 1 ->
          exists c evs0 b r0 r,
            _get_supabase_client sdk credentials env = (Ok c, evs0)
            /\ sdk_table sdk c table = Ok b
            /\ filter_truthy qf = true
            /\ sdk_delete sdk b = Ok r0
            /\ filtered sdk r0 (items qf) r)
       (supabase_db_query sdk credentials env table "delete" qf p).
Proof.
  unfold supabase_db_query, supabase_db_query_try, error_dict. literal_actions.
  repeat chain_step; chain_leaf.
Qed.

(** X6: whenever [supabase_db_query] makes its remote call for select,
    update or delete, the request it executes is the one obtained from the
    request builder by applying every filter entry, in order, each to the
    request the previous condition returned: the call's result is what
    [execute] answers for that request.  For update and delete the filter
    then has at least one entry, so neither is ever executed without a
    condition. *)
Theorem executed_request_carries_every_filter :
  forall sdk credentials env table qf p,
    (count_events remote_event
       (events_of (supabase_db_query sdk credentials env table "select" qf p))
     = 1 ->
     exists c evs b r0 r,
       _get_supabase_client sdk credentials env = (Ok c, evs)
       /\ sdk_table sdk c table = Ok b
       /\ sdk_select sdk b "*" = Ok r0
       /\ filtered sdk r0 (items qf) r
       /\ (forall e,
              sdk_execute sdk r = Raise e ->
              supabase_db_query sdk credentials env table "select" qf p
              = query_failure e
                  (evs ++ [Table table; Select "*"] ++ eq_events (items qf)
                       ++ [Execute]))
       /\ (forall res rows,
              sdk_execute sdk r = Ok res ->
              dict_get "data" (py_attrs res) = Some (VList rows) ->
              supabase_db_query sdk credentials env table "select" qf p
              = (Ok [("success", VBool true); ("data", VList rows);
                     ("count", VInt (Z.of_nat (List.length rows)))],
                 evs ++ [Table table; Select "*"] ++ eq_events (items qf)
                     ++ [Execute])))
    /\ (count_events remote_event
          (events_of (supabase_db_query sdk credentials env table "update" qf p))
        = 1 ->
        exists c evs b r0 r,
          _get_supabase_client sdk credentials env = (Ok c, evs)
          /\ sdk_table sdk c table = Ok b
          /\ sdk_update sdk b p = Ok r0
          /\ items qf <> []
          /\ filtered sdk r0 (items qf) r
          /\ (forall e,
                 sdk_execute sdk r = Raise e ->
                 supabase_db_query sdk credentials env table "update" qf p
                 = query_failure e
                     (evs ++ [Table table; Update p] ++ eq_events (items qf)
                          ++ [Execute]))
          /\ (forall res data,
                 sdk_execute sdk r = Ok res ->
                 dict_get "data" (py_attrs res) = Some data ->
                 supabase_db_query sdk credentials env table "update" qf p
                 = (Ok [("success", VBool true); ("data", data)],
                    evs ++ [Table table; Update p] ++ eq_events (items qf)
                        ++ [Execute])))
    /\ (count_events remote_event
          (events_of (supabase_db_query sdk credentials env table "delete" qf p))
        = 1 ->
        exists c evs b r0 r,
          _get_supabase_client sdk credentials env = (Ok c, evs)
          /\ sdk_table sdk c table = Ok b
          /\ sdk_delete sdk b = Ok r0
          /\ items qf <> []
          /\ filtered sdk r0 (items qf) r
          /\ (forall e,
                 sdk_execute sdk r = Raise e ->
                 supabase_db_query sdk credentials env table "delete" qf p
                 = query_failure e
                     (evs ++ [Table table; Delete] ++ eq_events (items qf)
                          ++ [Execute]))
          /\ (forall res data,
                 sdk_execute sdk r = Ok res ->
                 dict_get "data" (py_attrs res) = Some data ->
                 supabase_db_query sdk credentials env table "delete" qf p
                 = (Ok [("success", VBool true); ("data", data)],
                    evs ++ [Table table; Delete] ++ eq_events (items qf)
                        ++ [Execute]))).
Proof.
  intros sdk credentials env table qf p. split; [| split].
  - intros Hrem.
    destruct (select_reaches_execute sdk credentials env table qf p Hrem)
      as (c & evs & b & r0 & r & Hc & Ht & Hs & Hf).
    exists c, evs, b, r0, r. repeat (split; [assumption |]).
    split.
    + intros e Hx. apply db_query_failure.
      rewrite (select_up_to_execute _ _ _ _ _ _ _ _ _ _ _ Hc Ht Hs Hf),
        (prefixed_raise _ _ _ _ _ Hx).
      now rewrite <- !app_assoc.
    + intros res rows Hx Hd. apply db_query_returned.
      rewrite (select_up_to_execute _ _ _ _ _ _ _ _ _ _ _ Hc Ht Hs Hf),
        (bind_call_Ok _ _ _ _ Hx), (data_attribute _ _ Hd), !bind_ret.
      cbn [py_len]. rewrite bind_ret. settle_events.
  - intros Hrem.
    destruct (update_reaches_execute sdk credentials env table qf p Hrem)
      as (c & evs & b & r0 & r & Hc & Ht & Hp & Hq & Hu & Hf).
    exists c, evs, b, r0, r. repeat (split; [assumption |]).
    split; [now apply items_truthy |]. split; [assumption |].
    split.
    + intros e Hx. apply db_query_failure.
      rewrite (update_up_to_execute _ _ _ _ _ _ _ _ _ _ _ Hc Ht Hp Hq Hu Hf),
        (prefixed_raise _ _ _ _ _ Hx).
      now rewrite <- !app_assoc.
    + intros res data Hx Hd. apply db_query_returned.
      rewrite (update_up_to_execute _ _ _ _ _ _ _ _ _ _ _ Hc Ht Hp Hq Hu Hf),
        (bind_call_Ok _ _ _ _ Hx), (data_attribute _ _ Hd), !bind_ret.
      settle_events.
  - intros Hrem.
    destruct (delete_reaches_execute sdk credentials env table qf p Hrem)
      as (c & evs & b & r0 & r & Hc & Ht & Hq & Hd & Hf).
    exists c, evs, b, r0, r. repeat (split; [assumption |]).
    split; [now apply items_truthy |]. split; [assumption |].
    split.
    + intros e Hx. apply db_query_failure.
      rewrite (delete_up_to_execute _ _ _ _ _ _ _ _ _ _ _ Hc Ht Hq Hd Hf),
        (prefixed_raise _ _ _ _ _ Hx).
      now rewrite <- !app_assoc.
    + intros res data Hx Hdata. apply db_query_returned.
      rewrite (delete_up_to_execute _ _ _ _ _ _ _ _ _ _ _ Hc Ht Hq Hd Hf),
        (bind_call_Ok _ _ _ _ Hx), (data_attribute _ _ Hdata), !bind_ret.
      settle_events.
Qed.

Lemma executed_request_carries_every_filter_witness :
  exists c evs b r0 r,
    _get_supabase_client healthy_sdk None sample_environ = (Ok c, evs)
    /\ sdk_table healthy_sdk c "users" = Ok b
    /\ sdk_delete healthy_sdk b = Ok r0
    /\ items (Some [("status", VStr "inactive"); ("id", VInt 7)]) <> []
    /\ filtered healthy_sdk r0
         (items (Some [("status", VStr "inactive"); ("id", VInt 7)])) r
    /\ (forall e,
           sdk_execute healthy_sdk r = Raise e ->
           supabase_db_query healthy_sdk None sample_environ "users" "delete"
             (Some [("status", VStr "inactive"); ("id", VInt 7)]) PNone
           = query_failure e
               (evs ++ [Table "users"; Delete]
                    ++ eq_events
                         (items (Some [("status", VStr "inactive");
                                       ("id", VInt 7)]))
                    ++ [Execute]))
    /\ (forall res data,
           sdk_execute healthy_sdk r = Ok res ->
           dict_get "data" (py_attrs res) = Some data ->
           supabase_db_query healthy_sdk None sample_environ "users" "delete"
             (Some [("status", VStr "inactive"); ("id", VInt 7)]) PNone
           = (Ok [("success", VBool true); ("data", data)],
              evs ++ [Table "users"; Delete]
                  ++ eq_events
                       (items (Some [("status", VStr "inactive");
                                     ("id", VInt 7)]))
                  ++ [Execute])).
Proof.
  exact (proj2 (proj2 (executed_request_carries_every_filter
                         healthy_sdk None sample_environ "users"
                         (Some [("status", VStr "inactive"); ("id", VInt 7)])
                         PNone))
               eq_refl).
Defined.
